(** * mlflow.tracking.client: the run-table pivot and the facade

    A shallow embedding of [MlflowClient.runs_to_pandas],
    [MlflowClient.search_runs], [MlflowClient.create_run],
    [MlflowClient.log_metric] and [MlflowClient.log_batch]
    (mlflow/tracking/client.py), with the properties the specification
    states about them.

    Python dictionaries whose iteration order the specification leaves
    open (the tracked parameter, metric and tag columns, the column
    dictionary handed to pandas) are finite maps; the keyword-argument
    dictionary of [create_run], whose order reaches the store, is an
    association list.  A call that raises returns [None], or the
    exception where it is told apart. *)

From Stdlib Require Import ZArith SpecFloat.
From stdpp Require Import base option list strings gmap sets fin_maps.

Local Open Scope Z_scope.

(** ** Python values *)

(** A [datetime.datetime] value, identified by the second it was built
    from; the calendar fields the runtime derives from the second in its
    local time zone are left symbolic. *)
Inductive datetime : Type :=
  | at_second (t : Z).

Definition timestamp (d : datetime) : Z :=
  match d with at_second t => t end.

(** The first and the last second of [datetime.min] and [datetime.max] read
    as UTC: 0001-01-01T00:00:00 and 9999-12-31T23:59:59. *)
Definition MIN_TIMESTAMP : Z := -62135596800.
Definition MAX_TIMESTAMP : Z := 253402300799.

(** The runtime the client runs on.  [datetime.datetime.fromtimestamp]
    raises (ValueError, OverflowError or OSError) for a second whose local
    date lies outside the years 1 to 9999 or that the C library refuses;
    which seconds these are depends on the platform and on the time zone.
    Whatever they are, an accepted second is within a day, the largest
    offset of a time zone, of the range of [datetime]. *)
Class Runtime : Type := {
  accepts : Z → bool;
  accepts_in_range : ∀ t, accepts t = true →
    MIN_TIMESTAMP - 86400 ≤ t ≤ MAX_TIMESTAMP + 86400;
}.

(** [datetime.datetime.fromtimestamp(t)]: the date, or [None] when it
    raises. *)
Definition fromtimestamp `{Runtime} (t : Z) : option datetime :=
  if accepts t then Some (at_second t) else None.

(** A runtime whose local time is UTC and whose C library handles every
    second of the years 1 to 9999. *)
#[global] Program Instance utc_runtime : Runtime := {|
  accepts := λ t, bool_decide (MIN_TIMESTAMP ≤ t ≤ MAX_TIMESTAMP);
|}.
Next Obligation.
  intros t Ht. apply bool_decide_eq_true in Ht. lia.
Qed.

(** The values that occur in run records, in the columns of the table and
    among the arguments forwarded to the store.  A 64-bit float is a
    [spec_float]; it has a single not-a-number. *)
#[warnings="-register-all"]
Inductive pyval : Type :=
  | PNone
  | PInt (n : Z)
  | PFloat (f : spec_float)
  | PStr (s : string)
  | PList (l : list pyval)
  | PDatetime (d : datetime).

#[global] Instance pyval_inhabited : Inhabited pyval := populate PNone.

(** [np.nan] *)
Definition np_nan : pyval := PFloat S754_nan.

(** [isinstance(v, int)], [isinstance(v, str)] *)
Definition isinstance_int (v : pyval) : bool :=
  match v with PInt _ => true | _ => false end.

Definition isinstance_str (v : pyval) : bool :=
  match v with PStr _ => true | _ => false end.

(** [s.startswith(p)] *)
Definition startswith (s p : string) : bool := String.prefix p s.

(** The rest of [s] after the prefix [p], when [s] starts with [p]. *)
Fixpoint strip_prefix (p s : string) : option string :=
  match p with
  | EmptyString => Some s
  | String a p' =>
      match s with
      | EmptyString => None
      | String b s' => if decide (a = b) then strip_prefix p' s' else None
      end
  end.

(** [int(x / 1e3)] for an integer [x]: the quotient truncated toward zero.
    The float division rounds, and agrees with the exact quotient while
    [|x| < 2^53]; the seconds a runtime accepts keep every start time of a
    produced table within that bound, and beyond it the program raises as
    the model does (the rounded quotient is as large as the exact one). *)
Definition int_div_1e3 (x : Z) : Z := Z.quot x 1000.

(** ** Entities (mlflow.entities) *)

Record RunInfo : Type := {
  run_id : string;
  experiment_id : string;
  user_id : string;
  start_time : Z;
}.

Record RunData : Type := {
  params : gmap string pyval;
  metrics : gmap string pyval;
  tags : gmap string pyval;
}.

Record Run : Type := {
  info : RunInfo;
  data : RunData;
}.

(** The typing of the data model: parameter and tag values are strings,
    metric values are floats. *)
Definition is_str (v : pyval) : Prop := ∃ s, v = PStr s.
Definition is_float (v : pyval) : Prop := ∃ f, v = PFloat f.

Definition well_typed (run : Run) : Prop :=
  map_Forall (λ _ v, is_str v) run.(data).(params) ∧
  map_Forall (λ _ v, is_float v) run.(data).(metrics) ∧
  map_Forall (λ _ v, is_str v) run.(data).(tags).

(** ** runs_to_pandas *)

Module Pivot.

(** A dictionary from column key to the list of the values of the rows
    processed so far. *)
Abbreviation columns := (gmap string (list pyval)).

(** [for key in keys: if key in src: cols[key].append(src[key])
                      else: cols[key].append(NULL)] *)
Definition append_tracked (NULL : pyval) (src : gmap string pyval)
    (cols : columns) : columns :=
  map_imap (λ key col,
    Some (match src !! key with
          | Some v => col ++ [v]
          | None => col ++ [NULL]
          end)) cols.

(** [for p in new: if keep(p): cols[p] = [NULL]*i; cols[p].append(src[p])] *)
Definition add_new (NULL : pyval) (keep : string → bool) (i : nat)
    (src : gmap string pyval) (new : gset string) (cols : columns) : columns :=
  set_fold (λ p acc,
    if keep p then <[p := replicate i NULL ++ [src !!! p]]> acc else acc)
    cols new.

(** One block of the loop body: the tracked keys get the run's value or the
    null, then the keys of the run that are not tracked yet
    ([src.keys() - keys]) are added. *)
Definition update (NULL : pyval) (keep : string → bool) (i : nat)
    (src : gmap string pyval) (cols : columns) : columns :=
  let cols := append_tracked NULL src cols in
  let new := dom src ∖ dom cols in
  add_new NULL keep i src new cols.

Definition PARAM_NULL : pyval := PNone.
Definition METRIC_NULL : pyval := np_nan.
Definition TAG_NULL : pyval := PNone.

Definition update_params := update PARAM_NULL (λ _, true).
Definition update_metrics := update METRIC_NULL (λ _, true).
Definition update_tags := update TAG_NULL (λ t, negb (startswith t "mlflow.")).

(** The local variables of [runs_to_pandas]. *)
Record locals : Type := {
  l_info : columns;
  l_params : columns;
  l_metrics : columns;
  l_tags : columns;
}.

(** [d[key].append(v)] *)
Definition append (key : string) (v : pyval) (d : columns) : columns :=
  alter (λ col, col ++ [v]) key d.

(** [d.get(key, None)] *)
Definition get (key : string) (d : gmap string pyval) : pyval :=
  default PNone (d !! key).

Definition init : locals := {|
  l_info := <["date" := []]> (<["run_id" := []]> (<["run_name" := []]>
            (<["parent_run_id" := []]> (<["user_id" := []]> ∅))));
  l_params := ∅;
  l_metrics := ∅;
  l_tags := ∅;
|}.

(** The loop body.  Its first statement converts the start time, and the
    exception of [fromtimestamp] ends the call. *)
Definition body `{Runtime} (i : nat) (run : Run) (st : locals) : option locals :=
  match fromtimestamp (int_div_1e3 run.(info).(start_time)) with
  | None => None
  | Some date =>
      let info0 := st.(l_info) in
      let info1 := append "date" (PDatetime date) info0 in
      let info2 := append "run_id" (PStr run.(info).(run_id)) info1 in
      let info3 := append "run_name"
        (get "mlflow.runName" run.(data).(tags)) info2 in
      let info4 := append "parent_run_id"
        (get "mlflow.parentRunId" run.(data).(tags)) info3 in
      let info5 := append "user_id" (PStr run.(info).(user_id)) info4 in
      Some {|
        l_info := info5;
        l_params := update_params i run.(data).(params) st.(l_params);
        l_metrics := update_metrics i run.(data).(metrics) st.(l_metrics);
        l_tags := update_tags i run.(data).(tags) st.(l_tags) |}
  end.

(** [for i, run in enumerate(runs): body], started at index [i]. *)
Fixpoint loop `{Runtime} (i : nat) (runs : list Run) (st : locals)
    : option locals :=
  match runs with
  | [] => Some st
  | run :: rest =>
      match body i run st with
      | None => None
      | Some st' => loop (S i) rest st'
      end
  end.

(** [for key in keys: data[prefix + key] = cols[key]] *)
Definition emit (prefix : string) (cols : columns) (data : columns) : columns :=
  map_fold (λ key col acc, <[prefix +:+ key := col]> acc) data cols.

(** The statements after the loop: the dictionary handed to
    [pd.DataFrame]. *)
Definition collect (st : locals) : columns :=
  let data := st.(l_info) ∪ ∅ in
  let data := emit "metrics." st.(l_metrics) data in
  let data := emit "params." st.(l_params) data in
  emit "tags." st.(l_tags) data.

Definition frame_data `{Runtime} (runs : list Run) : option columns :=
  match loop 0 runs init with
  | None => None
  | Some st => Some (collect st)
  end.

(** [pd.DataFrame(data)] for a dictionary of lists: pandas refuses columns of
    different lengths; otherwise the frame holds the columns as given. *)
Definition same_length (data : columns) : Prop :=
  map_Forall (λ _ c1, map_Forall (λ _ c2, length c1 = length c2) data) data.

#[global] Instance same_length_dec data : Decision (same_length data).
Proof. unfold same_length. apply _. Defined.

Definition DataFrame (data : columns) : option columns :=
  if decide (same_length data) then Some data else None.

(** The table, or [None] when the call raises. *)
Definition runs_to_pandas `{Runtime} (runs : list Run) : option columns :=
  match frame_data runs with
  | None => None
  | Some data => DataFrame data
  end.

End Pivot.

(** ** What the table is to hold

    The cell of a run in the column of a key, and the keys that get a
    column, stated apart from the loop that computes them. *)

Section kind.
Context (NULL : pyval) (keep : string → bool).
Context (proj : Run → gmap string pyval).

(** The run carries the key. *)
Definition has_key (k : string) (run : Run) : Prop := is_Some (proj run !! k).

(** The key has a column once some run carried it, unless it is filtered. *)
Definition tracked (k : string) (runs : list Run) : Prop :=
  keep k = true ∧ Exists (has_key k) runs.

(** The cell of a run in the column of a key. *)
Definition cell (k : string) (run : Run) : pyval :=
  default NULL (proj run !! k).

Definition column_of (k : string) (runs : list Run) : list pyval :=
  cell k <$> runs.

#[global] Instance tracked_dec k runs : Decision (tracked k runs).
Proof. unfold tracked, has_key. apply _. Defined.

(** What the tracked columns hold after the runs [done]. *)
Definition kind_inv (done : list Run) (cols : gmap string (list pyval)) : Prop :=
  ∀ k, cols !! k =
    if decide (tracked k done) then Some (column_of k done) else None.
End kind.

(** The cells of the fixed columns. *)
Definition date_cell (run : Run) : pyval :=
  PDatetime (at_second (int_div_1e3 run.(info).(start_time))).

(** The start time of the run converts to a date. *)
Definition converts `{Runtime} (run : Run) : Prop :=
  accepts (int_div_1e3 run.(info).(start_time)) = true.
Definition run_id_cell (run : Run) : pyval := PStr run.(info).(run_id).
Definition run_name_cell (run : Run) : pyval :=
  default PNone (run.(data).(tags) !! "mlflow.runName").
Definition parent_run_id_cell (run : Run) : pyval :=
  default PNone (run.(data).(tags) !! "mlflow.parentRunId").
Definition user_id_cell (run : Run) : pyval := PStr run.(info).(user_id).

Definition info_columns (runs : list Run) : gmap string (list pyval) :=
  <["date" := date_cell <$> runs]> (
  <["run_id" := run_id_cell <$> runs]> (
  <["run_name" := run_name_cell <$> runs]> (
  <["parent_run_id" := parent_run_id_cell <$> runs]> (
  <["user_id" := user_id_cell <$> runs]> ∅)))).

(** The tag keys that are not reserved. *)
Definition unreserved (t : string) : bool := negb (startswith t "mlflow.").

(** What the local variables hold after the runs [done]. *)
Definition locals_inv (done : list Run) (st : Pivot.locals) : Prop :=
  st.(Pivot.l_info) = info_columns done ∧
  kind_inv Pivot.PARAM_NULL (λ _, true) (λ run, run.(data).(params))
    done st.(Pivot.l_params) ∧
  kind_inv Pivot.METRIC_NULL (λ _, true) (λ run, run.(data).(metrics))
    done st.(Pivot.l_metrics) ∧
  kind_inv Pivot.TAG_NULL unreserved (λ run, run.(data).(tags))
    done st.(Pivot.l_tags).


(** The three kinds of dynamic column: the null, the filter on the keys and
    the map of the run they are read from. *)
Definition params_of (run : Run) : gmap string pyval := run.(data).(params).
Definition metrics_of (run : Run) : gmap string pyval := run.(data).(metrics).
Definition tags_of (run : Run) : gmap string pyval := run.(data).(tags).

Definition param_column : string → list Run → list pyval :=
  column_of Pivot.PARAM_NULL params_of.
Definition metric_column : string → list Run → list pyval :=
  column_of Pivot.METRIC_NULL metrics_of.
Definition tag_column : string → list Run → list pyval :=
  column_of Pivot.TAG_NULL tags_of.

Definition param_tracked : string → list Run → Prop :=
  tracked (λ _, true) params_of.
Definition metric_tracked : string → list Run → Prop :=
  tracked (λ _, true) metrics_of.
Definition tag_tracked : string → list Run → Prop :=
  tracked unreserved tags_of.

(** A column name that is none of [metrics.*], [params.*], [tags.*]. *)
Definition plain (c : string) : Prop :=
  (∀ k, c ≠ "metrics." +:+ k) ∧ (∀ k, c ≠ "params." +:+ k) ∧
  (∀ k, c ≠ "tags." +:+ k).


(** The five fixed columns. *)
Definition fixed_columns : list string :=
  ["date"; "run_id"; "run_name"; "parent_run_id"; "user_id"].

(** The cell of a run in the column named [c]. *)
Definition table_cell (c : string) (run : Run) : pyval :=
  match strip_prefix "metrics." c with
  | Some k => cell Pivot.METRIC_NULL metrics_of k run
  | None =>
  match strip_prefix "params." c with
  | Some k => cell Pivot.PARAM_NULL params_of k run
  | None =>
  match strip_prefix "tags." c with
  | Some k => cell Pivot.TAG_NULL tags_of k run
  | None =>
      if decide (c = "date") then date_cell run
      else if decide (c = "run_id") then run_id_cell run
      else if decide (c = "run_name") then run_name_cell run
      else if decide (c = "parent_run_id") then parent_run_id_cell run
      else if decide (c = "user_id") then user_id_cell run
      else PNone
  end end end.

(** The kinds of dynamic column, each with its null, its column-name prefix,
    the map of the run it is read from and the filter on its keys. *)
Inductive kind : Type := Param | Metric | Tag.

Definition kind_null (kd : kind) : pyval :=
  match kd with
  | Param => Pivot.PARAM_NULL
  | Metric => Pivot.METRIC_NULL
  | Tag => Pivot.TAG_NULL
  end.

Definition kind_prefix (kd : kind) : string :=
  match kd with
  | Param => "params."
  | Metric => "metrics."
  | Tag => "tags."
  end.

Definition kind_map (kd : kind) : Run → gmap string pyval :=
  match kd with
  | Param => params_of
  | Metric => metrics_of
  | Tag => tags_of
  end.

Definition kind_keep (kd : kind) : string → bool :=
  match kd with
  | Param | Metric => λ _, true
  | Tag => unreserved
  end.

(** A null entry of a column: [None] or not-a-number. *)
Definition is_null (v : pyval) : Prop := v = PNone ∨ v = np_nan.

(** ** Rows back to run records *)

(** The cell of row [i] in the column [c], [None] where there is none. *)
Definition cell_at (c : string) (i : nat) (table : gmap string (list pyval)) : pyval :=
  default PNone (table !! c ≫= (λ col, col !! i)).

(** The cells of row [i] in the columns named [pre ++ k], keyed by [k]. *)
Definition row_values (pre : string) (i : nat)
    (table : gmap string (list pyval)) : gmap string pyval :=
  map_fold (λ c col acc,
    match strip_prefix pre c with
    | Some k => <[k := col !!! i]> acc
    | None => acc
    end) ∅ table.

(** The tags with [key] set to [v], unless [v] is [None]. *)
Definition with_tag (key : string) (v : pyval)
    (d : gmap string pyval) : gmap string pyval :=
  match v with
  | PNone => d
  | _ => <[key := v]> d
  end.

Definition str_of (v : pyval) : string :=
  match v with PStr s => s | _ => "" end.

(** The start time, in milliseconds, of a date cell. *)
Definition millis_of (v : pyval) : Z :=
  match v with PDatetime d => timestamp d * 1000 | _ => 0 end.

(** Modelled from the spec: the reconstruction of a Run-like record from a
    row of a table, which the source does not contain.  Row [i] becomes a
    record whose parameters, metrics and tags are the cells of row [i] in
    the [params.*], [metrics.*] and [tags.*] columns, whose run name and
    parent run id go back under their reserved tag keys, and whose start
    time is the second of the date cell in milliseconds. *)
Definition row_to_run (table : gmap string (list pyval)) (i : nat) : Run := {|
  info := {|
    run_id := str_of (cell_at "run_id" i table);
    experiment_id := "";
    user_id := str_of (cell_at "user_id" i table);
    start_time := millis_of (cell_at "date" i table) |};
  data := {|
    params := row_values "params." i table;
    metrics := row_values "metrics." i table;
    tags := with_tag "mlflow.runName" (cell_at "run_name" i table) (
            with_tag "mlflow.parentRunId" (cell_at "parent_run_id" i table) (
            row_values "tags." i table)) |} |}.

(** The number of rows: the length of the [run_id] column. *)
Definition nrows (table : gmap string (list pyval)) : nat :=
  length (default [] (table !! "run_id")).

(** Modelled from the spec: the records rebuilt from the rows of a table, in
    the order of its rows. *)
Definition table_to_runs (table : gmap string (list pyval)) : list Run :=
  row_to_run table <$> seq 0 (nrows table).

(** ** The store behind the client *)

Module Store.

Record RunTag : Type := { key : string; value : pyval }.

(** The keyword arguments of [store.search_runs] and [store.create_run]. *)
Record search_runs_args : Type := {
  experiment_ids : pyval;
  filter_string : pyval;
  run_view_type : pyval;
  max_results : pyval;
  order_by : pyval;
}.

Record create_run_args : Type := {
  experiment_id : pyval;
  user_id : pyval;
  start_time : pyval;
  tags : list RunTag;
}.

(** The abstract backend: whatever it does with a call, it is a function of
    the arguments it is given. *)
Class Store : Type := {
  result : Type;
  search_runs : search_runs_args → result;
  create_run : create_run_args → result;
}.

(** The store of the tests, which records the call it receives. *)
Inductive call : Type :=
  | SearchRuns (args : search_runs_args)
  | CreateRun (args : create_run_args).

Definition mock_store : Store := {|
  result := call;
  search_runs := SearchRuns;
  create_run := CreateRun;
|}.

End Store.

(** ** search_runs and create_run *)

Module Client.

(** A dictionary whose order of insertion matters: the pairs in that order,
    each key once. *)
Abbreviation dict := (list (string * pyval)).

(** [d.get(key, dflt)] *)
Fixpoint dict_get (d : dict) (key : string) (dflt : pyval) : pyval :=
  match d with
  | [] => dflt
  | (k, v) :: d' => if decide (k = key) then v else dict_get d' key dflt
  end.

(** The truth value of an object. *)
Definition truthy (v : pyval) : bool :=
  match v with
  | PNone => false
  | PInt n => negb (n =? 0)
  | PFloat (S754_zero _) => false
  | PFloat _ => true
  | PStr s => negb (String.eqb s "")
  | PList l => match l with [] => false | _ => true end
  | PDatetime _ => true
  end.

(** Modelled from the spec: the constant [MLFLOW_USER] of
    mlflow.utils.mlflow_tags, which is not part of the sources. *)
Definition MLFLOW_USER : string := "mlflow.user".

(** [tags if tags else {}], for [tags] that is [None] or a dictionary. *)
Definition tags_or_empty (tags : option dict) : dict :=
  match tags with
  | Some d => match d with [] => [] | _ :: _ => d end
  | None => []
  end.

(** [create_run(experiment_id, start_time, tags)]; [now] is the value of
    [int(time.time() * 1000)] at the call. *)
Definition create_run `{store : Store.Store} (now : Z)
    (experiment_id start_time : pyval) (tags : option dict) : Store.result :=
  let tags := tags_or_empty tags in
  let user_id := dict_get tags MLFLOW_USER (PStr "unknown") in
  Store.create_run {|
    Store.experiment_id := experiment_id;
    Store.user_id := user_id;
    Store.start_time := if truthy start_time then start_time else PInt now;
    Store.tags := (λ '(key, value), Store.Build_RunTag key value) <$> tags |}.

(** [search_runs(experiment_ids, filter_string, run_view_type, max_results,
    order_by)] *)
Definition search_runs `{store : Store.Store}
    (experiment_ids filter_string run_view_type max_results order_by : pyval)
    : Store.result :=
  let experiment_ids :=
    if isinstance_int experiment_ids || isinstance_str experiment_ids
    then PList [experiment_ids] else experiment_ids in
  Store.search_runs {|
    Store.experiment_ids := experiment_ids;
    Store.filter_string := filter_string;
    Store.run_view_type := run_view_type;
    Store.max_results := max_results;
    Store.order_by := order_by |}.

End Client.

(** ** The runs of the tests (tests/tracking/test_client.py) *)

Definition mock_run (uuid uid : string) (start : Z)
    (metrics params tags : list (string * pyval)) : Run := {|
  info := {| run_id := uuid; experiment_id := ""; user_id := uid;
             start_time := start |};
  data := {| params := list_to_map params; metrics := list_to_map metrics;
             tags := list_to_map tags |} |}.

(** The doubles 0.2, 0.6 and 1.2. *)
Definition f0_2 : pyval := PFloat (S754_finite false 7205759403792794 (-55)).
Definition f0_6 : pyval := PFloat (S754_finite false 5404319552844595 (-53)).
Definition f1_2 : pyval := PFloat (S754_finite false 5404319552844595 (-52)).

Definition data_run0 : Run :=
  mock_run "" "" 0 [("mse", f0_2)] [("param", PStr "value")]
    [("tag", PStr "value")].

Definition data_run1 : Run :=
  mock_run "" "" 0 [("mse", f0_6); ("loss", f1_2)]
    [("param2", PStr "val"); ("k", PStr "v")] [("tag2", PStr "v2")].

(** A run with reserved tags, started 1.5 s after the epoch. *)
Definition named_run : Run :=
  mock_run "uuid" "user_id" 1500 [] []
    [("mlflow.runName", PStr "first"); ("mlflow.user", PStr "me");
     ("tag", PStr "value")].

(** ** Further notions about the table *)

(** The name [c] is a column of the table of the runs: one of the fixed
    columns, or the column of a key of some kind that passes the filter of
    the kind and that some run carries. *)
Definition has_column (c : string) (runs : list Run) : Prop :=
  c ∈ fixed_columns ∨
  ∃ kd k, c = kind_prefix kd +:+ k ∧
          tracked (kind_keep kd) (kind_map kd) k runs.

(** Two runs that the table cannot tell apart: the same run id, user id and
    whole second of the start time, the same parameters and metrics, and the
    same tags as far as they are not reserved or are one of the two reserved
    keys of the fixed columns. *)
Definition surfaced (t : string) : Prop :=
  unreserved t = true ∨ t = "mlflow.runName" ∨ t = "mlflow.parentRunId".

Definition same_view (r1 r2 : Run) : Prop :=
  r1.(info).(run_id) = r2.(info).(run_id) ∧
  r1.(info).(user_id) = r2.(info).(user_id) ∧
  Z.quot r1.(info).(start_time) 1000 = Z.quot r2.(info).(start_time) 1000 ∧
  r1.(data).(params) = r2.(data).(params) ∧
  r1.(data).(metrics) = r2.(data).(metrics) ∧
  (∀ t, surfaced t → r1.(data).(tags) !! t = r2.(data).(tags) !! t).

(** The value a cell of a string column stands for: none for [None]. *)
Definition cell_value (v : pyval) : option pyval :=
  match v with
  | PNone => None
  | _ => Some v
  end.

(** [named_run] with another experiment, another millisecond of the same
    second and other reserved tags. *)
Definition named_run_again : Run := {|
  info := {| run_id := "uuid"; experiment_id := "7"; user_id := "user_id";
             start_time := 1999 |};
  data := {| params := ∅; metrics := ∅;
             tags := list_to_map [("mlflow.runName", PStr "first");
                                  ("mlflow.source.name", PStr "train.py");
                                  ("tag", PStr "value")] |} |}.

(** Columns of one row, and a run's parameters, to run one block of the
    loop body on. *)
Definition one_row_columns : gmap string (list pyval) :=
  list_to_map [("param", [PStr "value"])].

Definition next_params : gmap string pyval :=
  list_to_map [("param2", PStr "val"); ("k", PStr "v")].

(** ** log_metric and log_batch *)

Module Logging.

(** [mlflow.entities.Metric] and [mlflow.entities.Param]. *)
Record Metric : Type := {
  metric_key : pyval;
  metric_value : pyval;
  metric_timestamp : pyval;
  metric_step : pyval;
}.

Record Param : Type := {
  param_key : pyval;
  param_value : pyval;
}.

(** The helpers of mlflow.utils.validation, which are not part of the
    sources: each either returns or raises, here [None] or the exception. *)
Class Validation : Type := {
  exn : Type;
  _validate_metric : pyval → pyval → pyval → pyval → option exn;
  _validate_param_name : pyval → option exn;
  _validate_tag_name : pyval → option exn;
}.

(** The logging calls of the store. *)
Class Store : Type := {
  result : Type;
  log_metric : pyval → Metric → result;
  log_batch : pyval → list Metric → list Param → list Store.RunTag → result;
}.

(** A statement that may raise, followed by the rest of the body. *)
Definition and_then `{validation : Validation} {A : Type} (stmt : option exn)
    (rest : exn + A) : exn + A :=
  match stmt with
  | Some e => inl e
  | None => rest
  end.

(** [for x in xs: check(x)] *)
Fixpoint for_each `{validation : Validation} {A : Type} (check : A → option exn)
    (xs : list A) : option exn :=
  match xs with
  | [] => None
  | x :: xs' =>
      match check x with
      | Some e => Some e
      | None => for_each check xs'
      end
  end.

(** [log_metric(run_id, key, value, timestamp, step)]; [now] is the value of
    [int(time.time())] at the call. *)
Definition client_log_metric `{validation : Validation} `{store : Store} (now : Z)
    (run_id key value timestamp step : pyval) : exn + result :=
  let timestamp := match timestamp with PNone => PInt now | _ => timestamp end in
  let step := match step with PNone => PInt 0 | _ => step end in
  and_then (_validate_metric key value timestamp step) (
    let metric := {| metric_key := key; metric_value := value;
                     metric_timestamp := timestamp; metric_step := step |} in
    inr (log_metric run_id metric)).

(** [log_batch(run_id, metrics, params, tags)] *)
Definition client_log_batch `{validation : Validation} `{store : Store}
    (run_id : pyval) (metrics : list Metric) (params : list Param)
    (tags : list Store.RunTag) : exn + result :=
  and_then (for_each (λ metric,
      _validate_metric metric.(metric_key) metric.(metric_value)
        metric.(metric_timestamp) metric.(metric_step)) metrics) (
  and_then (for_each (λ param, _validate_param_name param.(param_key)) params) (
  and_then (for_each (λ tag, _validate_tag_name (PStr tag.(Store.key))) tags) (
    inr (log_batch run_id metrics params tags)))).

(** The checks of [log_batch] in the order they run. *)
Definition batch_checks `{validation : Validation} (metrics : list Metric)
    (params : list Param) (tags : list Store.RunTag) : list (option exn) :=
  ((λ metric, _validate_metric metric.(metric_key) metric.(metric_value)
      metric.(metric_timestamp) metric.(metric_step)) <$> metrics) ++
  ((λ param, _validate_param_name param.(param_key)) <$> params) ++
  ((λ tag, _validate_tag_name (PStr tag.(Store.key))) <$> tags).

(** A validation that refuses empty names, and a store that records the
    batch it is given. *)
Definition sample_validation : Validation := {|
  exn := string;
  _validate_metric := λ key _ _ _,
    match key with PStr "" => Some "Invalid metric name" | _ => None end;
  _validate_param_name := λ key,
    match key with PStr "" => Some "Invalid parameter name" | _ => None end;
  _validate_tag_name := λ key,
    match key with PStr "" => Some "Invalid tag name" | _ => None end;
|}.

Definition recording_store : Store := {|
  result := pyval * list Metric * list Param * list Store.RunTag;
  log_metric := λ run_id metric, (run_id, [metric], [], []);
  log_batch := λ run_id metrics params tags, (run_id, metrics, params, tags);
|}.

End Logging.

(** ** Counting the leading nulls of a column *)

(** The value is the null of the kind. *)
Definition is_kind_null (kd : kind) (v : pyval) : bool :=
  match kd, v with
  | Metric, PFloat S754_nan => true
  | Param, PNone => true
  | Tag, PNone => true
  | _, _ => false
  end.

(** The number of entries of the column before its first entry that is not
    the null of the kind. *)
Fixpoint leading_nulls (kd : kind) (col : list pyval) : nat :=
  match col with
  | [] => 0
  | v :: col' => if is_kind_null kd v then S (leading_nulls kd col') else 0
  end.

(** A run with no data, and a run whose only metric was logged as
    not-a-number. *)
Definition plain_run : Run := mock_run "a" "u" 0 [] [] [].
Definition nan_run : Run := mock_run "b" "u" 0 [("m", np_nan)] [] [].

(** The tables of the runs above. *)
Definition data_table : gmap string (list pyval) :=
  list_to_map [
    ("date", [PDatetime (at_second 0); PDatetime (at_second 0)]);
    ("run_id", [PStr ""; PStr ""]);
    ("run_name", [PNone; PNone]);
    ("parent_run_id", [PNone; PNone]);
    ("user_id", [PStr ""; PStr ""]);
    ("metrics.mse", [f0_2; f0_6]);
    ("metrics.loss", [np_nan; f1_2]);
    ("params.param", [PStr "value"; PNone]);
    ("params.param2", [PNone; PStr "val"]);
    ("params.k", [PNone; PStr "v"]);
    ("tags.tag", [PStr "value"; PNone]);
    ("tags.tag2", [PNone; PStr "v2"])].

Definition named_table : gmap string (list pyval) :=
  list_to_map [
    ("date", [PDatetime (at_second 1)]);
    ("run_id", [PStr "uuid"]);
    ("run_name", [PStr "first"]);
    ("parent_run_id", [PNone]);
    ("user_id", [PStr "user_id"]);
    ("tags.tag", [PStr "value"])].

Definition nan_table : gmap string (list pyval) :=
  list_to_map [
    ("date", [PDatetime (at_second 0); PDatetime (at_second 0)]);
    ("run_id", [PStr "a"; PStr "b"]);
    ("run_name", [PNone; PNone]);
    ("parent_run_id", [PNone; PNone]);
    ("user_id", [PStr "u"; PStr "u"]);
    ("metrics.m", [np_nan; np_nan])].

Definition same_second_table : gmap string (list pyval) :=
  list_to_map [
    ("date", [PDatetime (at_second 1); PDatetime (at_second 1)]);
    ("run_id", [PStr "uuid"; PStr "uuid"]);
    ("run_name", [PStr "first"; PStr "first"]);
    ("parent_run_id", [PNone; PNone]);
    ("user_id", [PStr "user_id"; PStr "user_id"]);
    ("tags.tag", [PStr "value"; PStr "value"])].

(** * Properties *)

(** ** Strings *)

Lemma startswith_app (p k : string) : startswith (p +:+ k) p = true.
Proof.
  unfold startswith. induction p as [|a p IH]; simpl.
  - by destruct k.
  - destruct (Ascii.ascii_dec a a); [exact IH | done].
Qed.

Lemma startswith_inv (s p : string) :
  startswith s p = true → ∃ k, s = p +:+ k.
Proof.
  unfold startswith. revert s. induction p as [|a p IH]; intros s Hs.
  - by exists s.
  - destruct s as [|b s]; simpl in Hs; [done|].
    destruct (Ascii.ascii_dec a b) as [->|]; [|done].
    destruct (IH _ Hs) as [k ->]. by exists k.
Qed.

Lemma startswith_iff (s p : string) :
  startswith s p = true ↔ ∃ k, s = p +:+ k.
Proof.
  split; [apply startswith_inv|]. intros [k ->]. apply startswith_app.
Qed.

Lemma not_startswith (s p : string) :
  startswith s p = false → ∀ k, s ≠ p +:+ k.
Proof.
  intros Hs k ->. by rewrite startswith_app in Hs.
Qed.

(** ** One kind of dynamic column *)

Import Pivot.

Section kind_facts.
Context (NULL : pyval) (keep : string → bool).
Context (proj : Run → gmap string pyval).

#[local] Abbreviation has_key := (has_key proj).
#[local] Abbreviation tracked := (tracked keep proj).
#[local] Abbreviation cell := (cell NULL proj).
#[local] Abbreviation column_of := (column_of NULL proj).
#[local] Abbreviation kind_inv := (kind_inv NULL keep proj).

Lemma lookup_append_tracked src (cols : columns) k :
  append_tracked NULL src cols !! k
  = (λ col, col ++ [default NULL (src !! k)]) <$> cols !! k.
Proof.
  unfold append_tracked. rewrite map_lookup_imap.
  destruct (cols !! k) as [col|]; simpl; [|done].
  by destruct (src !! k).
Qed.

Lemma lookup_add_new i src (new : gset string) (cols : columns) k :
  add_new NULL keep i src new cols !! k
  = if decide (k ∈ new ∧ keep k = true)
    then Some (replicate i NULL ++ [src !!! k]) else cols !! k.
Proof.
  unfold add_new. revert new.
  apply (set_fold_ind_L (λ (r : columns) (X : gset string),
    r !! k = if decide (k ∈ X ∧ keep k = true)
             then Some (replicate i NULL ++ [src !!! k]) else cols !! k)).
  - rewrite decide_False; [done|]. intros [Hk _]. by apply elem_of_empty in Hk.
  - intros p X r Hp IH. destruct (keep p) eqn:Hkeep.
    + destruct (decide (p = k)) as [->|Hne].
      * rewrite lookup_insert_eq, decide_True; [done|].
        split; [|done]. apply elem_of_union_l. by apply elem_of_singleton.
      * rewrite lookup_insert_ne by done. rewrite IH.
        apply decide_ext. rewrite elem_of_union, elem_of_singleton.
        split; [intros [? ?]; by auto|]. intros [[?|?] ?]; [congruence|done].
    + rewrite IH. apply decide_ext. rewrite elem_of_union, elem_of_singleton.
      split; [intros [? ?]; by auto|]. intros [[?|?] ?]; [congruence|done].
Qed.

Lemma lookup_update i src (cols : columns) k :
  update NULL keep i src cols !! k
  = match cols !! k with
    | Some col => Some (col ++ [default NULL (src !! k)])
    | None =>
        match src !! k with
        | Some v => if keep k then Some (replicate i NULL ++ [v]) else None
        | None => None
        end
    end.
Proof.
  unfold update. rewrite lookup_add_new, lookup_append_tracked.
  destruct (cols !! k) as [col|] eqn:Hcol; simpl.
  - rewrite decide_False; [done|]. intros [Hk _].
    apply elem_of_difference in Hk as [_ Hk]. apply Hk.
    apply elem_of_dom. rewrite lookup_append_tracked, Hcol. by eexists.
  - destruct (src !! k) as [v|] eqn:Hsrc.
    + destruct (keep k) eqn:Hkeep.
      * rewrite decide_True.
        { by rewrite (lookup_total_correct _ _ _ Hsrc). }
        split; [|done]. apply elem_of_difference. split.
        { apply elem_of_dom. by eexists. }
        rewrite elem_of_dom, lookup_append_tracked, Hcol. by intros [? ?].
      * rewrite decide_False; [done|]. by intros [_ ?].
    + rewrite decide_False; [done|]. intros [Hk _].
      apply elem_of_difference in Hk as [Hk _].
      apply elem_of_dom in Hk as [? ?]. congruence.
Qed.

Lemma column_of_untracked k runs :
  keep k = true → ¬ tracked k runs →
  column_of k runs = replicate (length runs) NULL.
Proof.
  intros Hkeep Hnot. unfold column_of.
  induction runs as [|run runs IH]; [done|]. simpl.
  assert (proj run !! k = None) as Hrun.
  { destruct (proj run !! k) eqn:E; [|done]. exfalso. apply Hnot.
    split; [done|]. left. unfold has_key. rewrite E. by eexists. }
  unfold cell at 1. rewrite Hrun. simpl. f_equal. apply IH.
  intros [_ Hex]. apply Hnot. split; [done|]. by right.
Qed.

Lemma tracked_snoc k done run :
  tracked k (done ++ [run]) ↔ tracked k done ∨ (keep k = true ∧ has_key k run).
Proof.
  unfold tracked. rewrite Exists_app, Exists_cons, Exists_nil. tauto.
Qed.

Lemma kind_inv_nil : kind_inv [] ∅.
Proof.
  intros k. rewrite lookup_empty, decide_False; [done|].
  intros [_ Hex]. by apply Exists_nil in Hex.
Qed.

Lemma kind_inv_step done run cols :
  kind_inv done cols →
  kind_inv (done ++ [run]) (update NULL keep (length done) (proj run) cols).
Proof.
  intros Hinv k. rewrite lookup_update, (Hinv k).
  unfold column_of. rewrite fmap_app. simpl.
  destruct (decide (tracked k done)) as [Htr|Htr].
  - rewrite decide_True; [done|]. apply tracked_snoc. by left.
  - destruct (proj run !! k) as [v|] eqn:Hv.
    + destruct (keep k) eqn:Hkeep.
      * rewrite decide_True.
        2:{ apply tracked_snoc. right. split; [done|].
            unfold has_key. rewrite Hv. by eexists. }
        fold (column_of k done). rewrite column_of_untracked by done.
        unfold cell. by rewrite Hv.
      * rewrite decide_False; [done|]. intros [? _]. congruence.
    + rewrite decide_False; [done|]. intros Hsn.
      apply tracked_snoc in Hsn as [?|[_ [? Hk]]]; [done|].
      unfold has_key in Hk. congruence.
Qed.
End kind_facts.

(** ** The loop *)

Section pivot_facts.
Context `{runtime : Runtime}.

Lemma info_columns_snoc done run :
  append "user_id" (user_id_cell run) (
  append "parent_run_id" (parent_run_id_cell run) (
  append "run_name" (run_name_cell run) (
  append "run_id" (run_id_cell run) (
  append "date" (date_cell run) (info_columns done)))))
  = info_columns (done ++ [run]).
Proof.
  unfold append, info_columns. rewrite !fmap_app. simpl.
  apply map_eq. intros c.
  repeat (rewrite lookup_alter || rewrite lookup_insert).
  repeat case_decide; simplify_eq; done.
Qed.

Lemma locals_inv_init : locals_inv [] init.
Proof.
  split; [done|]. repeat split; apply kind_inv_nil.
Qed.

Lemma fromtimestamp_Some t d :
  fromtimestamp t = Some d ↔ accepts t = true ∧ d = at_second t.
Proof.
  unfold fromtimestamp. destruct (accepts t); split.
  - by intros [= <-].
  - by intros [_ ->].
  - done.
  - by intros [? _].
Qed.

Lemma body_is_Some i run st : is_Some (body i run st) ↔ converts run.
Proof.
  unfold body, converts, fromtimestamp.
  destruct (accepts _); split; first [done | by eexists | by intros [? ?]].
Qed.

Lemma locals_inv_body done run st st' :
  body (length done) run st = Some st' →
  locals_inv done st → locals_inv (done ++ [run]) st'.
Proof.
  unfold body. destruct (fromtimestamp _) as [d|] eqn:Hd; [|done].
  apply fromtimestamp_Some in Hd as [_ ->].
  intros [= <-] (Hinfo & Hp & Hm & Ht). split; simpl.
  - rewrite Hinfo. apply info_columns_snoc.
  - repeat split.
    + apply (kind_inv_step _ _ (λ run, run.(data).(params))), Hp.
    + apply (kind_inv_step _ _ (λ run, run.(data).(metrics))), Hm.
    + apply (kind_inv_step _ _ (λ run, run.(data).(tags))), Ht.
Qed.

Lemma locals_inv_loop rest : ∀ done st st',
  loop (length done) rest st = Some st' →
  locals_inv done st → locals_inv (done ++ rest) st'.
Proof.
  induction rest as [|run rest IH]; intros done st st' Hloop Hinv; simpl in *.
  - rewrite app_nil_r. by injection Hloop as <-.
  - destruct (body (length done) run st) as [st1|] eqn:Hbody; [|done].
    replace (done ++ run :: rest) with ((done ++ [run]) ++ rest)
      by (by rewrite <- app_assoc).
    apply (IH (done ++ [run]) st1).
    + rewrite length_app. simpl.
      by replace (length done + 1)%nat with (S (length done)) by lia.
    + by eapply locals_inv_body.
Qed.

Lemma loop_is_Some runs : ∀ i st,
  is_Some (loop i runs st) ↔ Forall converts runs.
Proof.
  induction runs as [|run runs IH]; intros i st; simpl.
  - split; [by constructor|by eexists].
  - rewrite Forall_cons, <- (body_is_Some i run st).
    destruct (body i run st) as [st1|].
    + rewrite IH. split; [by split|by intros [_ ?]].
    + split; [by intros [? ?]|by intros [[? ?] _]].
Qed.

(** The call gets past the loop exactly when every start time converts. *)
Lemma frame_data_is_Some runs :
  is_Some (frame_data runs) ↔ Forall converts runs.
Proof.
  unfold frame_data. rewrite <- (loop_is_Some runs 0 init).
  destruct (loop 0 runs init); split; try done; by intros [? ?].
Qed.

Lemma frame_data_inv runs T :
  frame_data runs = Some T → ∃ st, locals_inv runs st ∧ T = collect st.
Proof.
  unfold frame_data. destruct (loop 0 runs init) as [st|] eqn:Hloop; [|done].
  intros [= <-]. exists st. split; [|done].
  apply (locals_inv_loop runs [] init st Hloop), locals_inv_init.
Qed.

(** ** Emitting the columns *)

Lemma lookup_emit_prefix pre (cols data : columns) k :
  emit pre cols data !! (pre +:+ k)
  = match cols !! k with
    | Some col => Some col
    | None => data !! (pre +:+ k)
    end.
Proof.
  unfold emit. revert cols.
  apply (map_fold_weak_ind (λ (r : columns) (m : columns),
    r !! (pre +:+ k) = match m !! k with
                       | Some col => Some col
                       | None => data !! (pre +:+ k)
                       end)).
  - by rewrite lookup_empty.
  - intros j col m r Hj IH. destruct (decide (j = k)) as [->|Hne].
    + by rewrite !lookup_insert_eq.
    + rewrite (lookup_insert_ne m) by done.
      rewrite lookup_insert_ne; [done|].
      intros Heq. by apply (inj (String.app pre)) in Heq.
Qed.

Lemma lookup_emit_other pre (cols data : columns) c :
  (∀ k, c ≠ pre +:+ k) → emit pre cols data !! c = data !! c.
Proof.
  intros Hc. unfold emit. revert cols.
  apply (map_fold_weak_ind (λ (r : columns) (m : columns), r !! c = data !! c)).
  - done.
  - intros j col m r Hj IH. rewrite lookup_insert_ne; [done|].
    intros Heq. by apply (Hc j).
Qed.

Lemma plain_or_dynamic c :
  plain c ∨ (∃ k, c = "metrics." +:+ k) ∨ (∃ k, c = "params." +:+ k)
  ∨ (∃ k, c = "tags." +:+ k).
Proof.
  destruct (startswith c "metrics.") eqn:Hm.
  { right; left. by apply startswith_inv. }
  destruct (startswith c "params.") eqn:Hp.
  { right; right; left. by apply startswith_inv. }
  destruct (startswith c "tags.") eqn:Ht.
  { right; right; right. by apply startswith_inv. }
  left. repeat split; by apply not_startswith.
Qed.

Lemma strip_prefix_app p k : strip_prefix p (p +:+ k) = Some k.
Proof.
  induction p as [|a p IH]; simpl; [done|]. by rewrite decide_True.
Qed.

Lemma strip_prefix_Some p s k : strip_prefix p s = Some k ↔ s = p +:+ k.
Proof.
  split; [|intros ->; apply strip_prefix_app].
  revert s. induction p as [|a p IH]; intros s; simpl.
  - by intros [= ->].
  - destruct s as [|b s]; [done|]. case_decide; [|done].
    intros Hs. subst b. by rewrite (IH _ Hs).
Qed.

Lemma info_columns_lookup runs c col :
  info_columns runs !! c = Some col →
  c ∈ fixed_columns ∧ col = table_cell c <$> runs.
Proof.
  unfold info_columns, fixed_columns.
  repeat (rewrite lookup_insert; case_decide;
    [subst c; intros [= <-]; split; [set_solver | done] |]).
  by rewrite lookup_empty.
Qed.

Lemma info_columns_fixed runs c :
  c ∈ fixed_columns → info_columns runs !! c = Some (table_cell c <$> runs).
Proof.
  intros Hc. unfold fixed_columns in Hc. unfold info_columns.
  repeat (apply elem_of_cons in Hc as [->|Hc]; [done|]).
  by apply elem_of_nil in Hc.
Qed.

Lemma fixed_plain c : c ∈ fixed_columns → plain c.
Proof.
  intros Hc. unfold fixed_columns in Hc.
  repeat (apply elem_of_cons in Hc as [->|Hc]; [by repeat split|]).
  by apply elem_of_nil in Hc.
Qed.

Lemma kind_prefix_not_plain kd k : ¬ plain (kind_prefix kd +:+ k).
Proof.
  intros (Hm & Hp & Ht). destruct kd; [by apply (Hp k)|by apply (Hm k)|by apply (Ht k)].
Qed.

Lemma kind_prefix_inj kd1 k1 kd2 k2 :
  kind_prefix kd1 +:+ k1 = kind_prefix kd2 +:+ k2 → kd1 = kd2 ∧ k1 = k2.
Proof.
  destruct kd1, kd2; simpl; intros Heq; try discriminate;
    (split; [done|]); by simplify_eq.
Qed.

Lemma table_cell_kind kd k run :
  table_cell (kind_prefix kd +:+ k) run = default (kind_null kd) (kind_map kd run !! k).
Proof. by destruct kd. Qed.

Lemma tracked_exists keep proj k runs :
  tracked keep proj k runs
  ↔ keep k = true ∧ ∃ run, run ∈ runs ∧ is_Some (proj run !! k).
Proof. unfold tracked, has_key. by rewrite Exists_exists. Qed.

Lemma column_of_first_seen NULL proj k i run v runs :
  runs !! i = Some run → proj run !! k = Some v →
  (∀ j r, (j < i)%nat → runs !! j = Some r → proj r !! k = None) →
  ∃ rest, column_of NULL proj k runs = replicate i NULL ++ v :: rest.
Proof.
  intros Hi Hv Hbefore.
  exists (cell NULL proj k <$> drop (S i) runs).
  rewrite <- (take_drop_middle runs i run Hi) at 1.
  unfold column_of. rewrite fmap_app, fmap_cons. f_equal.
  - assert (length (take i runs) = i) as Hlen.
    { apply length_take_le. apply lookup_lt_Some in Hi. lia. }
    rewrite <- Hlen at 2. clear Hlen.
    apply list_eq. intros j. rewrite list_lookup_fmap.
    destruct (take i runs !! j) as [r|] eqn:Hj; simpl.
    + pose proof (lookup_lt_Some _ _ _ Hj) as Hlt.
      rewrite lookup_replicate_2 by done. f_equal.
      rewrite length_take in Hlt.
      rewrite lookup_take_lt in Hj by lia.
      unfold cell. by rewrite (Hbefore j r) by (done || lia).
    + symmetry. apply lookup_replicate_None.
      by apply lookup_ge_None in Hj.
  - unfold cell at 1. by rewrite Hv.
Qed.

Lemma elem_of_column_of NULL proj k runs v :
  v ∈ column_of NULL proj k runs →
  ∃ run, run ∈ runs ∧ v = default NULL (proj run !! k).
Proof.
  unfold column_of. intros Hv.
  apply list_elem_of_fmap in Hv as (run & -> & Hrun). by exists run.
Qed.

(** ** The dictionary handed to pandas, column by column *)

Section frame.
Context (runs : list Run) (T : gmap string (list pyval)).
Context (HT : frame_data runs = Some T).

Lemma lookup_frame_metrics k :
  T !! ("metrics." +:+ k)
  = if decide (metric_tracked k runs) then Some (metric_column k runs) else None.
Proof.
  destruct (frame_data_inv runs T HT) as (st & (Hinfo & _ & Hm & _) & ->).
  unfold collect. cbv zeta.
  rewrite lookup_emit_other by done.
  rewrite lookup_emit_other by done.
  rewrite lookup_emit_prefix, (Hm k).
  unfold metric_tracked, metric_column, metrics_of.
  case_decide; [done|].
  rewrite Hinfo, lookup_union, lookup_empty. by unfold info_columns.
Qed.

Lemma lookup_frame_params k :
  T !! ("params." +:+ k)
  = if decide (param_tracked k runs) then Some (param_column k runs) else None.
Proof.
  destruct (frame_data_inv runs T HT) as (st & (Hinfo & Hp & _ & _) & ->).
  unfold collect. cbv zeta.
  rewrite lookup_emit_other by done.
  rewrite lookup_emit_prefix, (Hp k).
  unfold param_tracked, param_column, params_of.
  case_decide; [done|].
  rewrite lookup_emit_other by done.
  rewrite Hinfo, lookup_union, lookup_empty. by unfold info_columns.
Qed.

Lemma lookup_frame_tags k :
  T !! ("tags." +:+ k)
  = if decide (tag_tracked k runs) then Some (tag_column k runs) else None.
Proof.
  destruct (frame_data_inv runs T HT) as (st & (Hinfo & _ & _ & Ht) & ->).
  unfold collect. cbv zeta.
  rewrite lookup_emit_prefix, (Ht k).
  unfold tag_tracked, tag_column, tags_of.
  case_decide; [done|].
  rewrite !lookup_emit_other by done.
  rewrite Hinfo, lookup_union, lookup_empty. by unfold info_columns.
Qed.

Lemma lookup_frame_plain c :
  plain c → T !! c = info_columns runs !! c.
Proof.
  intros (Hm & Hp & Ht).
  destruct (frame_data_inv runs T HT) as (st & (Hinfo & _) & ->).
  unfold collect. cbv zeta.
  rewrite !lookup_emit_other by done.
  rewrite Hinfo, lookup_union, lookup_empty. by destruct (info_columns runs !! c).
Qed.

Lemma lookup_frame_kind kd k :
  T !! (kind_prefix kd +:+ k)
  = if decide (tracked (kind_keep kd) (kind_map kd) k runs)
    then Some (column_of (kind_null kd) (kind_map kd) k runs) else None.
Proof.
  destruct kd.
  - apply lookup_frame_params.
  - apply lookup_frame_metrics.
  - apply lookup_frame_tags.
Qed.

Lemma frame_data_fixed c :
  c ∈ fixed_columns → T !! c = Some (table_cell c <$> runs).
Proof.
  intros Hc. rewrite lookup_frame_plain by by apply fixed_plain.
  by apply info_columns_fixed.
Qed.

(** The columns of the table, by name. *)
Lemma frame_data_lookup_iff c col :
  T !! c = Some col ↔ has_column c runs ∧ col = table_cell c <$> runs.
Proof.
  split.
  - destruct (plain_or_dynamic c) as [Hpl|Hdyn].
    + rewrite lookup_frame_plain by done. intros Hc.
      apply info_columns_lookup in Hc as [? ->]. split; [by left|done].
    + assert (∃ kd k, c = kind_prefix kd +:+ k) as (kd & k & ->).
      { destruct Hdyn as [[k ->]|[[k ->]|[k ->]]];
          [by exists Metric, k | by exists Param, k | by exists Tag, k]. }
      rewrite lookup_frame_kind. case_decide; [|done]. intros [= <-].
      split; [right; by exists kd, k|].
      unfold column_of. apply list_fmap_ext.
      intros i run _. by rewrite table_cell_kind.
  - intros [[Hfix|(kd & k & -> & Htr)] ->].
    + by apply frame_data_fixed.
    + rewrite lookup_frame_kind, decide_True by done.
      f_equal. unfold column_of. apply list_fmap_ext.
      intros i run _. by rewrite table_cell_kind.
Qed.

Lemma frame_data_lookup c col :
  T !! c = Some col → col = table_cell c <$> runs.
Proof. intros Hc. by apply frame_data_lookup_iff in Hc as [_ ?]. Qed.

Lemma frame_data_length c col :
  T !! c = Some col → length col = length runs.
Proof.
  intros H. rewrite (frame_data_lookup _ _ H). apply length_fmap.
Qed.

Lemma frame_data_same_length : same_length T.
Proof.
  intros c1 col1 H1 c2 col2 H2.
  by rewrite (frame_data_length _ _ H1), (frame_data_length _ _ H2).
Qed.

Lemma frame_data_converts : Forall converts runs.
Proof. apply frame_data_is_Some. by rewrite HT. Qed.

(** A cell of a run that lacks the key is the null of the kind, whatever
    the values of the runs are. *)
Lemma null_fill kd k col i run :
  T !! (kind_prefix kd +:+ k) = Some col →
  runs !! i = Some run → kind_map kd run !! k = None →
  col !! i = Some (kind_null kd).
Proof.
  intros Hcol Hi Hk.
  rewrite (frame_data_lookup _ _ Hcol), list_lookup_fmap, Hi. simpl.
  by rewrite table_cell_kind, Hk.
Qed.

Lemma frame_reserved_tag k :
  unreserved k = false → T !! ("tags." +:+ k) = None.
Proof.
  intros Hk. rewrite lookup_frame_tags, decide_False; [done|].
  intros [Hkeep _]. congruence.
Qed.

Lemma cell_at_frame c col i run :
  T !! c = Some col → runs !! i = Some run →
  cell_at c i T = table_cell c run.
Proof.
  intros Hc Hi. unfold cell_at. rewrite Hc. simpl.
  by rewrite (frame_data_lookup _ _ Hc), list_lookup_fmap, Hi.
Qed.

Lemma cell_at_fixed c i run :
  c ∈ fixed_columns → runs !! i = Some run →
  cell_at c i T = table_cell c run.
Proof.
  intros Hc Hi. eapply cell_at_frame; [|done]. by apply frame_data_fixed.
Qed.

Lemma nrows_frame : nrows T = length runs.
Proof.
  unfold nrows. rewrite frame_data_fixed by (unfold fixed_columns; set_solver).
  simpl. apply length_fmap.
Qed.

Lemma cell_at_kind kd k i run :
  runs !! i = Some run →
  cell_at (kind_prefix kd +:+ k) i T
  = if decide (tracked (kind_keep kd) (kind_map kd) k runs)
    then default (kind_null kd) (kind_map kd run !! k) else PNone.
Proof.
  intros Hi. unfold cell_at. rewrite lookup_frame_kind.
  case_decide; [|done]. simpl. unfold column_of.
  by rewrite list_lookup_fmap, Hi.
Qed.

Lemma cell_at_carried kd k i run v :
  runs !! i = Some run → kind_keep kd k = true →
  kind_map kd run !! k = Some v →
  cell_at (kind_prefix kd +:+ k) i T = v.
Proof.
  intros Hi Hkeep Hv. rewrite (cell_at_kind kd k i run Hi).
  rewrite decide_True; [by rewrite Hv|].
  apply tracked_exists. split; [done|]. exists run.
  split; [by eapply list_elem_of_lookup_2|by rewrite Hv].
Qed.

Lemma cell_at_missing kd k i run :
  runs !! i = Some run → kind_map kd run !! k = None →
  kind_null kd = PNone →
  cell_at (kind_prefix kd +:+ k) i T = PNone.
Proof.
  intros Hi Hk Hnull. rewrite (cell_at_kind kd k i run Hi).
  case_decide; [|done]. by rewrite Hk.
Qed.

End frame.

(** pandas accepts the dictionary: the call returns once it is past the
    loop. *)
Lemma runs_to_pandas_frame runs : runs_to_pandas runs = frame_data runs.
Proof.
  unfold runs_to_pandas. destruct (frame_data runs) as [T|] eqn:HT; [|done].
  unfold DataFrame. rewrite decide_True; [done|].
  by apply (frame_data_same_length runs).
Qed.

Lemma runs_to_pandas_is_Some runs :
  is_Some (runs_to_pandas runs) ↔ Forall converts runs.
Proof. rewrite runs_to_pandas_frame. apply frame_data_is_Some. Qed.


Lemma is_kind_null_true kd v : is_kind_null kd v = true ↔ v = kind_null kd.
Proof.
  destruct kd, v as [| |[]| | |]; simpl; split; try done.
Qed.

Lemma leading_nulls_backfill kd i v rest :
  v ≠ kind_null kd →
  leading_nulls kd (replicate i (kind_null kd) ++ v :: rest) = i.
Proof.
  intros Hv. induction i as [|i IH]; simpl.
  - destruct (is_kind_null kd v) eqn:Hnull; [|done].
    by apply is_kind_null_true in Hnull.
  - rewrite (proj2 (is_kind_null_true kd (kind_null kd))) by done.
    by rewrite IH.
Qed.

Lemma leading_nulls_at_least kd i col :
  leading_nulls kd (replicate i (kind_null kd) ++ col)
  = (i + leading_nulls kd col)%nat.
Proof.
  induction i as [|i IH]; simpl; [done|].
  rewrite (proj2 (is_kind_null_true kd (kind_null kd))) by done.
  by rewrite IH.
Qed.

(** A run whose start time converts started within the range over which
    the float division by 1000 is exact. *)
Lemma converts_exact run :
  converts run → - 2 ^ 53 < run.(info).(start_time) < 2 ^ 53.
Proof.
  unfold converts, int_div_1e3. intros Hacc.
  apply accepts_in_range in Hacc.
  unfold MIN_TIMESTAMP, MAX_TIMESTAMP in Hacc.
  pose proof (Z.quot_rem' (start_time (info run)) 1000) as Hqr.
  pose proof (Z.rem_bound_abs (start_time (info run)) 1000 ltac:(lia)) as Hr.
  lia.
Qed.

(** ** The specified properties of the pivot *)

(** C1: the table is rectangular.  Every column of a table the call
    produces, fixed or dynamic, holds exactly one cell per input run, and
    the cell at row [i] is the cell of run [i] (its value, or the null of
    the kind when the run has no such key), so also the rows before the run
    that introduced the column are filled and the rows follow the order of
    the runs.  The five fixed columns are present, and so is the column of
    every key some run carries. *)
Theorem runs_to_pandas_rectangular (runs : list Run)
    (table : gmap string (list pyval)) :
  runs_to_pandas runs = Some table →
  (∀ c col, table !! c = Some col →
     length col = length runs ∧
     ∀ i run, runs !! i = Some run → col !! i = Some (table_cell c run)) ∧
  (∀ kd k run, table_cell (kind_prefix kd +:+ k) run
               = default (kind_null kd) (kind_map kd run !! k)) ∧
  (∀ c, c ∈ fixed_columns → is_Some (table !! c)) ∧
  (∀ kd k, kind_keep kd k = true →
     Exists (has_key (kind_map kd) k) runs →
     is_Some (table !! (kind_prefix kd +:+ k))).
Proof.
  rewrite runs_to_pandas_frame. intros HT.
  split; [|split; [|split]].
  - intros c col Hc. split; [by eapply frame_data_length|].
    intros i run Hi. rewrite (frame_data_lookup runs table HT _ _ Hc).
    by rewrite list_lookup_fmap, Hi.
  - apply table_cell_kind.
  - intros c Hc. rewrite (frame_data_fixed runs table HT) by done. by eexists.
  - intros kd k Hkeep Hex. rewrite (lookup_frame_kind runs table HT).
    rewrite decide_True by done. by eexists.
Qed.

Lemma first_seen_prefix runs table kd k i run v :
  frame_data runs = Some table →
  runs !! i = Some run →
  kind_map kd run !! k = Some v →
  (∀ j r, (j < i)%nat → runs !! j = Some r → kind_map kd r !! k = None) →
  kind_keep kd k = true →
  ∃ rest, table !! (kind_prefix kd +:+ k)
          = Some (replicate i (kind_null kd) ++ v :: rest).
Proof.
  intros HT Hi Hv Hbefore Hkeep.
  destruct (column_of_first_seen (kind_null kd) (kind_map kd)
              k i run v runs Hi Hv Hbefore) as [rest Hcol].
  exists rest.
  rewrite (lookup_frame_kind runs table HT), decide_True, Hcol; [done|].
  split; [done|]. apply Exists_exists. exists run. split.
  - by eapply list_elem_of_lookup_2.
  - unfold has_key. rewrite Hv. by eexists.
Qed.

(** C2, amended: in a table the call produces, a key of some kind (for a
    tag, one outside the reserved namespace) that run [i] is the first to
    carry, with a value [v] that is not itself the null of the kind, has a
    column that starts with exactly [i] nulls of its kind, followed by
    [v]. *)
Theorem first_seen_backfill (runs : list Run)
    (table : gmap string (list pyval)) (kd : kind) (k : string)
    (i : nat) (run : Run) (v : pyval) :
  runs_to_pandas runs = Some table →
  runs !! i = Some run →
  kind_map kd run !! k = Some v →
  (∀ j r, (j < i)%nat → runs !! j = Some r → kind_map kd r !! k = None) →
  kind_keep kd k = true →
  v ≠ kind_null kd →
  ∃ col rest, table !! (kind_prefix kd +:+ k) = Some col ∧
    col = replicate i (kind_null kd) ++ v :: rest ∧
    leading_nulls kd col = i.
Proof.
  rewrite runs_to_pandas_frame. intros HT Hi Hv Hbefore Hkeep Hnull.
  destruct (first_seen_prefix runs table kd k i run v HT Hi Hv Hbefore Hkeep)
    as [rest Hcol].
  exists (replicate i (kind_null kd) ++ v :: rest), rest.
  repeat split; [done|]. by apply leading_nulls_backfill.
Qed.

(** C3: the nulls of the three kinds are never mixed.  A cell of a run that
    lacks the key is not-a-number in a [metrics.*] column and [None] in a
    [params.*] or [tags.*] column; and for runs typed as the data model has
    them, a null entry of a [metrics.*] column is always not-a-number and a
    null entry of a [params.*] or [tags.*] column is always [None]. *)
Theorem null_sentinels (runs : list Run) (table : gmap string (list pyval)) :
  runs_to_pandas runs = Some table →
  Forall well_typed runs →
  (∀ kd k col i run,
     table !! (kind_prefix kd +:+ k) = Some col →
     runs !! i = Some run → kind_map kd run !! k = None →
     col !! i = Some (kind_null kd)) ∧
  (kind_null Metric = np_nan ∧ kind_null Param = PNone ∧ kind_null Tag = PNone) ∧
  (∀ k col v, v ∈ col → is_null v →
     (table !! ("metrics." +:+ k) = Some col → v = np_nan ∧ v ≠ PNone) ∧
     (table !! ("params." +:+ k) = Some col → v = PNone ∧ v ≠ np_nan) ∧
     (table !! ("tags." +:+ k) = Some col → v = PNone ∧ v ≠ np_nan)).
Proof.
  rewrite runs_to_pandas_frame. intros HT Htyped.
  split; [|split; [done|]].
  - intros kd k col i run Hcol Hi Hk. by eapply null_fill.
  - intros k col v Hv Hnull.
    rewrite (lookup_frame_metrics runs table HT),
      (lookup_frame_params runs table HT), (lookup_frame_tags runs table HT).
    rewrite Forall_forall in Htyped.
    split; [|split]; (case_decide; [|done]); intros [= <-];
      apply elem_of_column_of in Hv as (run & Hrun & ->);
      destruct (Htyped run Hrun) as (Hp & Hm & Ht).
    + destruct (metrics_of run !! k) as [x|] eqn:Hx; simpl in *; [|done].
      destruct (Hm k x Hx) as [f ->]. by destruct Hnull as [?|<-].
    + destruct (params_of run !! k) as [x|] eqn:Hx; simpl in *; [|done].
      destruct (Hp k x Hx) as [s ->]. by destruct Hnull.
    + destruct (tags_of run !! k) as [x|] eqn:Hx; simpl in *; [|done].
      destruct (Ht k x Hx) as [s ->]. by destruct Hnull.
Qed.

(** C4: a table the call produces has one row per run, and the fixed
    columns of row [i] come from run [i]: its run id, its user id, the date
    of its start time in whole seconds, and the values of its tags
    [mlflow.runName] and [mlflow.parentRunId], or [None] where it has no
    such tag. *)
Theorem fixed_columns_of_runs (runs : list Run)
    (table : gmap string (list pyval)) :
  runs_to_pandas runs = Some table →
  (∀ c col, table !! c = Some col → length col = length runs) ∧
  table !! "run_id" = Some ((λ run, PStr run.(info).(run_id)) <$> runs) ∧
  table !! "user_id" = Some ((λ run, PStr run.(info).(user_id)) <$> runs) ∧
  table !! "date"
  = Some ((λ run, PDatetime
             (at_second (Z.quot run.(info).(start_time) 1000))) <$> runs) ∧
  Forall (λ run, fromtimestamp (Z.quot run.(info).(start_time) 1000)
                 = Some (at_second (Z.quot run.(info).(start_time) 1000))) runs ∧
  table !! "run_name"
  = Some ((λ run, default PNone (run.(data).(tags) !! "mlflow.runName"))
            <$> runs) ∧
  table !! "parent_run_id"
  = Some ((λ run, default PNone (run.(data).(tags) !! "mlflow.parentRunId"))
            <$> runs).
Proof.
  rewrite runs_to_pandas_frame. intros HT.
  split; [intros c col; by apply (frame_data_length runs table HT)|].
  assert (Forall (λ run, fromtimestamp (Z.quot run.(info).(start_time) 1000)
            = Some (at_second (Z.quot run.(info).(start_time) 1000))) runs).
  { eapply Forall_impl; [apply (frame_data_converts runs table HT)|].
    intros run Hrun. by apply fromtimestamp_Some. }
  repeat split; try done;
    (rewrite (frame_data_fixed runs table HT); [done|]);
    unfold fixed_columns; set_solver.
Qed.

(** C5: a tag key in the reserved namespace, one that starts with [mlflow.],
    never gets a [tags.*] column in a table the call produces, whatever the
    runs are; this holds for the run name and the parent run id too, which
    only show in the fixed columns. *)
Theorem reserved_tags_hidden (runs : list Run)
    (table : gmap string (list pyval)) (k : string) :
  runs_to_pandas runs = Some table →
  startswith k "mlflow." = true →
  table !! ("tags." +:+ k) = None.
Proof.
  rewrite runs_to_pandas_frame. intros HT Hk.
  apply (frame_reserved_tag runs table HT). unfold unreserved. by rewrite Hk.
Qed.

(** C6: for no runs at all, the table has the five fixed columns, each
    empty, and no other column. *)
Theorem runs_to_pandas_empty :
  runs_to_pandas [] =
    Some (<["date" := []]> (<["run_id" := []]> (<["run_name" := []]> (
          <["parent_run_id" := []]> (<["user_id" := []]> ∅))))).
Proof. by rewrite runs_to_pandas_frame. Qed.

(** C8: in a table the call produces, the date cell is built from the start
    time divided by 1000 and truncated toward zero, so two runs whose start
    times truncate to the same whole second have the same date cell.  The
    start times of such a table lie within the range over which the float
    division of the source is the exact one. *)
Theorem date_whole_seconds (runs : list Run)
    (table : gmap string (list pyval)) (i j : nat) (ri rj : Run) :
  runs_to_pandas runs = Some table →
  runs !! i = Some ri → runs !! j = Some rj →
  Z.quot ri.(info).(start_time) 1000 = Z.quot rj.(info).(start_time) 1000 →
  ∃ col, table !! "date" = Some col ∧
    col !! i = Some (PDatetime (at_second (Z.quot ri.(info).(start_time) 1000))) ∧
    col !! j = col !! i ∧
    fromtimestamp (Z.quot ri.(info).(start_time) 1000)
    = Some (at_second (Z.quot ri.(info).(start_time) 1000)) ∧
    - 2 ^ 53 < ri.(info).(start_time) < 2 ^ 53.
Proof.
  rewrite runs_to_pandas_frame. intros HT Hi Hj Heq.
  exists (date_cell <$> runs).
  split; [rewrite (frame_data_fixed runs table HT);
          [done|unfold fixed_columns; set_solver]|].
  rewrite !list_lookup_fmap, Hi, Hj. simpl.
  pose proof (frame_data_converts runs table HT) as Hconv.
  rewrite Forall_forall in Hconv.
  specialize (Hconv ri (list_elem_of_lookup_2 _ _ _ Hi)).
  repeat split.
  - unfold date_cell, int_div_1e3. by rewrite Heq.
  - by apply fromtimestamp_Some.
  - by apply converts_exact.
  - by apply converts_exact.
Qed.

(** ** Rows back to runs, and the table again *)

Lemma lookup_row_values pre i (table : columns) k :
  row_values pre i table !! k = (λ col, col !!! i) <$> table !! (pre +:+ k).
Proof.
  unfold row_values. revert k.
  apply (map_fold_weak_ind (λ (r : gmap string pyval) (m : columns),
    ∀ k, r !! k = (λ col, col !!! i) <$> m !! (pre +:+ k))).
  - intros k. by rewrite !lookup_empty.
  - intros c col m r Hc IH k.
    destruct (strip_prefix pre c) as [k'|] eqn:Hstrip.
    + apply strip_prefix_Some in Hstrip as ->.
      destruct (decide (k' = k)) as [->|Hne].
      * by rewrite !lookup_insert_eq.
      * rewrite !lookup_insert_ne; [apply IH| |done].
        intros Heq. by apply (inj (String.app pre)) in Heq.
    + rewrite lookup_insert_ne; [apply IH|].
      intros ->. by rewrite strip_prefix_app in Hstrip.
Qed.

Lemma lookup_with_tag_ne key v (d : gmap string pyval) k :
  key ≠ k → with_tag key v d !! k = d !! k.
Proof.
  intros Hne. unfold with_tag. destruct v; try done; by rewrite lookup_insert_ne.
Qed.

Lemma lookup_with_tag_eq key v (d : gmap string pyval) :
  d !! key = None → default PNone (with_tag key v d !! key) = v.
Proof.
  intros Hd. unfold with_tag.
  destruct v; try (by rewrite lookup_insert_eq). by rewrite Hd.
Qed.

Lemma kind_map_row (table : columns) kd k i :
  kind_keep kd k = true →
  kind_map kd (row_to_run table i) !! k
  = (λ col, col !!! i) <$> table !! (kind_prefix kd +:+ k).
Proof.
  intros Hkeep. destruct kd; simpl; try apply lookup_row_values.
  unfold tags_of. simpl.
  rewrite !lookup_with_tag_ne; [apply lookup_row_values| |];
    by intros <-.
Qed.

Lemma fmap_rows (f : Run → pyval) (table : columns) (runs : list Run) :
  (∀ i run, runs !! i = Some run → f (row_to_run table i) = f run) →
  f <$> (row_to_run table <$> seq 0 (length runs)) = f <$> runs.
Proof.
  intros Hf. apply list_eq. intros i. rewrite !list_lookup_fmap.
  destruct (runs !! i) as [run|] eqn:Hi; simpl.
  - rewrite lookup_seq_lt by (by eapply lookup_lt_Some). simpl.
    f_equal. by apply Hf.
  - rewrite lookup_seq_ge; [done|]. by apply lookup_ge_None.
Qed.

Lemma reserved_run_name : unreserved "mlflow.runName" = false.
Proof. reflexivity. Qed.

Lemma reserved_parent_run_id : unreserved "mlflow.parentRunId" = false.
Proof. reflexivity. Qed.

Section rows.
Context (runs : list Run) (T : gmap string (list pyval)).
Context (HT : frame_data runs = Some T).

(** The fixed cells of a rebuilt run are those of the run of its row. *)
Lemma row_fixed_cells i run :
  runs !! i = Some run →
  let run' := row_to_run T i in
  date_cell run' = date_cell run ∧ run_id_cell run' = run_id_cell run ∧
  run_name_cell run' = run_name_cell run ∧
  parent_run_id_cell run' = parent_run_id_cell run ∧
  user_id_cell run' = user_id_cell run.
Proof.
  intros Hi run'. subst run'.
  unfold date_cell, run_id_cell, run_name_cell, parent_run_id_cell,
    user_id_cell, row_to_run. simpl.
  rewrite !(cell_at_fixed runs T HT _ i run)
    by (done || unfold fixed_columns; set_solver).
  repeat split.
  - change (table_cell "date" run) with (date_cell run).
    unfold date_cell, millis_of, int_div_1e3, timestamp.
    by rewrite Z.quot_mul.
  - change (table_cell "run_name" run) with (run_name_cell run).
    apply lookup_with_tag_eq.
    rewrite lookup_with_tag_ne by done.
    rewrite lookup_row_values.
    by rewrite (frame_reserved_tag runs T HT _ reserved_run_name).
  - change (table_cell "parent_run_id" run) with (parent_run_id_cell run).
    rewrite lookup_with_tag_ne by done.
    apply lookup_with_tag_eq.
    rewrite lookup_row_values.
    by rewrite (frame_reserved_tag runs T HT _ reserved_parent_run_id).
Qed.

Lemma row_converts i run :
  runs !! i = Some run → converts (row_to_run T i).
Proof.
  intros Hi.
  pose proof (frame_data_converts runs T HT) as Hconv.
  rewrite Forall_forall in Hconv.
  specialize (Hconv run (list_elem_of_lookup_2 _ _ _ Hi)).
  destruct (row_fixed_cells i run Hi) as (Hdate & _).
  unfold date_cell in Hdate. injection Hdate as Hdate.
  unfold converts, row_to_run in *. simpl in *. by rewrite Hdate.
Qed.

Lemma rows_convert : Forall converts (table_to_runs T).
Proof.
  unfold table_to_runs. rewrite (nrows_frame runs T HT).
  apply Forall_fmap, Forall_forall. intros i Hi.
  apply elem_of_seq in Hi as [_ Hi]. simpl in Hi.
  destruct (lookup_lt_is_Some_2 runs i Hi) as [run Hrun].
  by apply (row_converts i run).
Qed.

Lemma info_columns_rows :
  info_columns (table_to_runs T) = info_columns runs.
Proof.
  unfold table_to_runs, info_columns. rewrite (nrows_frame runs T HT).
  rewrite !(fmap_rows _ T runs); [done|..];
    intros i run Hi; by destruct (row_fixed_cells i run Hi) as (?&?&?&?&?).
Qed.

Lemma tracked_rows kd k :
  tracked (kind_keep kd) (kind_map kd) k (table_to_runs T)
  ↔ tracked (kind_keep kd) (kind_map kd) k runs.
Proof.
  unfold tracked, table_to_runs. rewrite (nrows_frame runs T HT).
  split; intros [Hkeep Hex]; (split; [done|]).
  - apply Exists_exists in Hex as (run' & Hin & Hkey).
    apply list_elem_of_fmap in Hin as (i & -> & _).
    unfold has_key in Hkey. rewrite kind_map_row in Hkey by done.
    rewrite (lookup_frame_kind runs T HT) in Hkey.
    case_decide as Htr; [by destruct Htr|]. by destruct Hkey.
  - destruct runs as [|run runs0]; [by apply Exists_nil in Hex|].
    apply Exists_exists. exists (row_to_run T 0).
    split; [simpl; left|].
    unfold has_key. rewrite kind_map_row by done.
    rewrite (lookup_frame_kind _ T HT), decide_True by done. by eexists.
Qed.

Lemma column_of_rows kd k :
  tracked (kind_keep kd) (kind_map kd) k runs →
  column_of (kind_null kd) (kind_map kd) k (table_to_runs T)
  = column_of (kind_null kd) (kind_map kd) k runs.
Proof.
  intros Htr. unfold column_of, table_to_runs. rewrite (nrows_frame runs T HT).
  apply fmap_rows. intros i run Hi. unfold cell at 1.
  rewrite kind_map_row by apply Htr.
  rewrite (lookup_frame_kind runs T HT), decide_True by done. simpl.
  unfold column_of. apply list_lookup_total_correct.
  by rewrite list_lookup_fmap, Hi.
Qed.

Lemma frame_data_rows : frame_data (table_to_runs T) = Some T.
Proof.
  destruct (proj2 (frame_data_is_Some (table_to_runs T)) rows_convert)
    as [T' HT'].
  rewrite HT'. f_equal. apply map_eq. intros c.
  destruct (plain_or_dynamic c) as [Hc|Hc].
  - by rewrite (lookup_frame_plain _ T' HT'), (lookup_frame_plain _ T HT),
      info_columns_rows.
  - assert (∃ kd k, c = kind_prefix kd +:+ k) as (kd & k & ->).
    { destruct Hc as [[k ->]|[[k ->]|[k ->]]];
        [by exists Metric, k | by exists Param, k | by exists Tag, k]. }
    rewrite (lookup_frame_kind _ T' HT'), (lookup_frame_kind _ T HT).
    destruct (decide (tracked (kind_keep kd) (kind_map kd) k runs)) as [Htr|Htr].
    + rewrite decide_True by (by apply tracked_rows).
      by rewrite column_of_rows.
    + rewrite decide_False; [done|]. by rewrite tracked_rows.
Qed.

End rows.

(** C7: rebuilding a run record from each row of a table the call produces,
    the cells of its dynamic columns becoming the parameters, metrics and
    tags of the run, and building the table of these records gives the same
    table again.  Tables are maps from column names, so the order of the
    columns is not part of the equality. *)
Theorem runs_to_pandas_idempotent (runs : list Run)
    (table : gmap string (list pyval)) :
  runs_to_pandas runs = Some table →
  length (table_to_runs table) = length runs ∧
  runs_to_pandas (table_to_runs table) = Some table.
Proof.
  rewrite runs_to_pandas_frame. intros HT. split.
  - unfold table_to_runs.
    by rewrite length_fmap, length_seq, (nrows_frame runs table HT).
  - rewrite runs_to_pandas_frame. by apply (frame_data_rows runs).
Qed.

(** * Further properties of the pivot *)

(** X1: a table the call produces has no column beyond the five fixed ones
    and those of the keys the runs carry: a name is a column exactly when it
    is a fixed column or the prefixed name of a key that passes the filter
    of its kind and that at least one run carries. *)
Theorem table_columns (runs : list Run) (table : gmap string (list pyval)) :
  runs_to_pandas runs = Some table →
  (∀ c, is_Some (table !! c) ↔ has_column c runs) ∧
  (∀ kd k, is_Some (table !! (kind_prefix kd +:+ k))
     ↔ kind_keep kd k = true ∧
       ∃ run, run ∈ runs ∧ is_Some (kind_map kd run !! k)) ∧
  (∀ c, plain c → is_Some (table !! c) ↔ c ∈ fixed_columns).
Proof.
  rewrite runs_to_pandas_frame. intros HT.
  assert (∀ c, is_Some (table !! c) ↔ has_column c runs) as Hcols.
  { intros c. split.
    - intros [col Hc].
      by apply (frame_data_lookup_iff runs table HT) in Hc as [? _].
    - intros Hc. eexists. by apply (frame_data_lookup_iff runs table HT). }
  split; [done|]. split.
  - intros kd k. rewrite Hcols, <- tracked_exists. split.
    + intros [Hfix|(kd' & k' & Heq & Htr)].
      * by apply fixed_plain, kind_prefix_not_plain in Hfix.
      * by apply kind_prefix_inj in Heq as [-> ->].
    + intros Htr. right. by exists kd, k.
  - intros c Hpl. rewrite Hcols. split; [|by left].
    intros [Hfix|(kd & k & -> & _)]; [done|].
    by apply kind_prefix_not_plain in Hpl.
Qed.


(** X3: processing further runs never changes the rows already there: when
    the call produces a table for [runs1 ++ runs2], it produces one for
    [runs1], and each column of that table is, in the table of
    [runs1 ++ runs2], the same cells followed by the cells of [runs2]. *)
Theorem table_append (runs1 runs2 : list Run)
    (table : gmap string (list pyval)) :
  runs_to_pandas (runs1 ++ runs2) = Some table →
  ∃ table1, runs_to_pandas runs1 = Some table1 ∧
    ∀ c col1, table1 !! c = Some col1 →
      table !! c = Some (col1 ++ (table_cell c <$> runs2)).
Proof.
  rewrite !runs_to_pandas_frame. intros HT.
  pose proof (frame_data_converts _ table HT) as Hconv.
  apply Forall_app in Hconv as [Hconv1 _].
  apply frame_data_is_Some in Hconv1 as [table1 HT1].
  exists table1. split; [done|]. intros c col1 Hc.
  apply (frame_data_lookup_iff runs1 table1 HT1) in Hc as [Hcol ->].
  apply (frame_data_lookup_iff _ table HT). split; [|by rewrite fmap_app].
  destruct Hcol as [?|(kd & k & -> & Hkeep & Hex)]; [by left|right].
  exists kd, k. split; [done|]. split; [done|].
  apply Exists_app. by left.
Qed.

Lemma has_column_Permutation c runs runs' :
  runs ≡ₚ runs' → has_column c runs → has_column c runs'.
Proof.
  intros Hperm [?|(kd & k & -> & Htr)]; [by left|right].
  exists kd, k. split; [done|].
  apply tracked_exists in Htr as (Hkeep & run & Hrun & Hk).
  apply tracked_exists. split; [done|]. exists run. split; [|done].
  by rewrite <- Hperm.
Qed.

(** X4: the order of the runs decides the order of the rows and nothing
    else.  When the call produces a table for the runs it produces one for
    every permutation of them, with the same column names, and the row of a
    run moves with the run: if a run is at index [i] of the one list and at
    index [j] of the other, then row [j] of the one table is, column by
    column, row [i] of the other. *)
Theorem table_permutation (runs runs' : list Run)
    (table : gmap string (list pyval)) :
  runs ≡ₚ runs' →
  runs_to_pandas runs = Some table →
  ∃ table', runs_to_pandas runs' = Some table' ∧
    dom table' = dom table ∧
    ∀ i j run, runs !! i = Some run → runs' !! j = Some run →
      ∀ c col, table !! c = Some col →
        ∃ col', table' !! c = Some col' ∧ col' !! j = col !! i.
Proof.
  intros Hperm. rewrite !runs_to_pandas_frame. intros HT.
  pose proof (frame_data_converts _ table HT) as Hconv.
  rewrite Hperm in Hconv.
  apply frame_data_is_Some in Hconv as [table' HT'].
  exists table'. split; [done|]. split.
  - apply set_eq. intros c. rewrite !elem_of_dom. split; intros [col Hc].
    + apply (frame_data_lookup_iff _ _ HT') in Hc as [Hcol _].
      eexists. apply (frame_data_lookup_iff _ _ HT). split; [|done].
      by apply (has_column_Permutation c runs' runs).
    + apply (frame_data_lookup_iff _ _ HT) in Hc as [Hcol _].
      eexists. apply (frame_data_lookup_iff _ _ HT'). split; [|done].
      by apply (has_column_Permutation c runs runs').
  - intros i j run Hi Hj c col Hc.
    apply (frame_data_lookup_iff _ _ HT) in Hc as [Hcol ->].
    exists (table_cell c <$> runs'). split.
    + apply (frame_data_lookup_iff _ _ HT'). split; [|done].
      by eapply has_column_Permutation.
    + by rewrite !list_lookup_fmap, Hi, Hj.
Qed.

Lemma Forall2_fmap_ext {A B} (R : A → A → Prop) (f : A → B) l l' :
  (∀ x y, R x y → f x = f y) → Forall2 R l l' → f <$> l = f <$> l'.
Proof.
  intros Hf Hl. induction Hl as [|x y l l' Hxy _ IH]; [done|].
  rewrite !fmap_cons. f_equal; [by apply Hf|done].
Qed.

Lemma same_view_surfaced r1 r2 kd k :
  same_view r1 r2 → kind_keep kd k = true →
  kind_map kd r1 !! k = kind_map kd r2 !! k.
Proof.
  intros (_ & _ & _ & Hp & Hm & Ht) Hkeep.
  destruct kd; simpl; unfold params_of, metrics_of, tags_of.
  - by rewrite Hp.
  - by rewrite Hm.
  - apply Ht. by left.
Qed.

Lemma same_view_sym r1 r2 : same_view r1 r2 → same_view r2 r1.
Proof.
  intros (? & ? & ? & ? & ? & Ht). repeat split; try done.
  intros t Hs. symmetry. by apply Ht.
Qed.

Lemma same_view_table_cell runs r1 r2 c :
  same_view r1 r2 → has_column c runs →
  table_cell c r1 = table_cell c r2.
Proof.
  intros Hv [Hfix|(kd & k & -> & Hkeep & _)].
  - destruct Hv as (Hid & Hu & Hst & _ & _ & Ht). unfold fixed_columns in Hfix.
    repeat (apply elem_of_cons in Hfix as [->|Hfix]).
    + change (date_cell r1 = date_cell r2).
      unfold date_cell, int_div_1e3. by rewrite Hst.
    + change (run_id_cell r1 = run_id_cell r2). unfold run_id_cell. by rewrite Hid.
    + change (run_name_cell r1 = run_name_cell r2). unfold run_name_cell.
      rewrite (Ht "mlflow.runName"); [done|]. right. by left.
    + change (parent_run_id_cell r1 = parent_run_id_cell r2).
      unfold parent_run_id_cell.
      rewrite (Ht "mlflow.parentRunId"); [done|]. right. by right.
    + change (user_id_cell r1 = user_id_cell r2). unfold user_id_cell. by rewrite Hu.
    + by apply elem_of_nil in Hfix.
  - by rewrite !table_cell_kind, (same_view_surfaced r1 r2 kd k).
Qed.

Lemma same_view_has_column runs runs' c :
  Forall2 same_view runs runs' → has_column c runs → has_column c runs'.
Proof.
  intros Hv [?|(kd & k & -> & Hkeep & Hex)]; [by left|right].
  exists kd, k. split; [done|]. split; [done|].
  induction Hv as [|r1 r2 l l' Hr _ IH]; [by apply Exists_nil in Hex|].
  apply Exists_cons in Hex as [Hk|Hex]; [left|right; by apply IH].
  unfold has_key in *. by rewrite <- (same_view_surfaced r1 r2 kd k).
Qed.

Lemma same_view_converts runs runs' :
  Forall2 same_view runs runs' → Forall converts runs → Forall converts runs'.
Proof.
  intros Hv. induction Hv as [|r1 r2 l l' Hr _ IH]; [done|].
  rewrite !Forall_cons. intros [Hc Hl]. split; [|by apply IH].
  destruct Hr as (_ & _ & Hst & _). unfold converts, int_div_1e3 in *.
  by rewrite <- Hst.
Qed.

Lemma same_view_frame runs runs' T :
  Forall2 same_view runs runs' →
  frame_data runs = Some T → frame_data runs' = Some T.
Proof.
  intros Hv HT.
  pose proof (same_view_converts runs runs' Hv (frame_data_converts _ T HT))
    as Hconv.
  apply frame_data_is_Some in Hconv as [T' HT'].
  rewrite HT'. f_equal. apply map_eq. intros c.
  assert (∀ col, T !! c = Some col → T' !! c = Some col) as H1.
  { intros col Hc. apply (frame_data_lookup_iff _ _ HT) in Hc as [Hcol ->].
    apply (frame_data_lookup_iff _ _ HT').
    split; [by eapply same_view_has_column|].
    apply (Forall2_fmap_ext same_view); [|done].
    intros x y Hxy. by eapply same_view_table_cell. }
  assert (∀ col, T' !! c = Some col → T !! c = Some col) as H2.
  { assert (Forall2 same_view runs' runs) as Hv'.
    { apply Forall2_flip. eapply Forall2_impl; [done|].
      intros ??. apply same_view_sym. }
    intros col Hc. apply (frame_data_lookup_iff _ _ HT') in Hc as [Hcol ->].
    apply (frame_data_lookup_iff _ _ HT).
    split; [by eapply same_view_has_column|].
    apply (Forall2_fmap_ext same_view); [|done].
    intros x y Hxy. by eapply same_view_table_cell. }
  apply option_eq. intros col. split; [apply H2|apply H1].
Qed.

(** X5: the table depends on a run only through its run id, its user id,
    the whole second of its start time, its parameters, its metrics, and its
    tags that are not reserved or are [mlflow.runName] or
    [mlflow.parentRunId].  Runs that agree on these give the same table:
    the experiment id, the milliseconds and the other reserved tags never
    show. *)
Theorem table_same_view (runs runs' : list Run) :
  Forall2 same_view runs runs' →
  runs_to_pandas runs = runs_to_pandas runs'.
Proof.
  intros Hv. rewrite !runs_to_pandas_frame.
  destruct (frame_data runs) as [T|] eqn:HT.
  - symmetry. by apply (same_view_frame runs runs').
  - destruct (frame_data runs') as [T'|] eqn:HT'; [|done].
    apply (same_view_frame runs' runs) in HT'; [congruence|].
    apply Forall2_flip. eapply Forall2_impl; [done|].
    intros ??. apply same_view_sym.
Qed.

(** X6: one block of the loop body keeps the tracked columns rectangular.
    When every tracked column has [i] cells, after the block every tracked
    column has [i + 1] cells; a column tracked before keeps its cells and
    gets one more; and the tracked keys afterwards are those tracked before
    and the keys of the run that pass the filter. *)
Theorem update_block (NULL : pyval) (keep : string → bool) (i : nat)
    (src : gmap string pyval) (cols : gmap string (list pyval)) :
  map_Forall (λ _ col, length col = i) cols →
  map_Forall (λ _ col, length col = S i) (update NULL keep i src cols) ∧
  (∀ k col, cols !! k = Some col →
     update NULL keep i src cols !! k = Some (col ++ [default NULL (src !! k)])) ∧
  (∀ k, is_Some (update NULL keep i src cols !! k)
     ↔ is_Some (cols !! k) ∨ (is_Some (src !! k) ∧ keep k = true)).
Proof.
  intros Hlen. split; [|split].
  - intros k col. rewrite lookup_update.
    destruct (cols !! k) as [col0|] eqn:Hk.
    + intros [= <-]. rewrite length_app, (Hlen k col0 Hk). simpl. lia.
    + destruct (src !! k); [|done]. destruct (keep k); [|done].
      intros [= <-]. rewrite length_app, length_replicate. simpl. lia.
  - intros k col Hk. by rewrite lookup_update, Hk.
  - intros k. rewrite lookup_update.
    destruct (cols !! k) as [col0|]; [split; eauto|].
    destruct (src !! k) as [v|]; [destruct (keep k)|].
    + split; eauto.
    + split; [by intros [? ?]|]. intros [[? ?]|[_ ?]]; done.
    + split; [by intros [? ?]|]. intros [[? ?]|[[? ?] _]]; done.
Qed.

(** X7: for runs typed as the data model types them, the columns are typed
    too: every cell of a [metrics.*] column is a float, and every cell of a
    [params.*] or [tags.*] column and of the [run_name] and [parent_run_id]
    columns is a string or [None]. *)
Theorem typed_columns (runs : list Run) (table : gmap string (list pyval)) :
  runs_to_pandas runs = Some table →
  Forall well_typed runs →
  (∀ k col, table !! ("metrics." +:+ k) = Some col → Forall is_float col) ∧
  (∀ k col, table !! ("params." +:+ k) = Some col →
     Forall (λ v, v = PNone ∨ is_str v) col) ∧
  (∀ k col, table !! ("tags." +:+ k) = Some col →
     Forall (λ v, v = PNone ∨ is_str v) col) ∧
  (∀ col, table !! "run_name" = Some col ∨ table !! "parent_run_id" = Some col →
     Forall (λ v, v = PNone ∨ is_str v) col).
Proof.
  rewrite runs_to_pandas_frame. intros HT Htyped.
  rewrite Forall_forall in Htyped.
  assert (∀ (f : Run → pyval) (P : pyval → Prop),
            (∀ run, run ∈ runs → P (f run)) → Forall P (f <$> runs)) as Hall.
  { intros f P Hf. apply Forall_fmap, Forall_forall. intros run Hrun.
    by apply Hf. }
  repeat split.
  - intros k col. rewrite (lookup_frame_metrics runs table HT).
    case_decide; [|done].
    intros [= <-]. apply Hall. intros run Hrun.
    destruct (Htyped run Hrun) as (_ & Hm & _). unfold cell.
    destruct (metrics_of run !! k) as [x|] eqn:Hx; simpl.
    + by apply (Hm k x).
    + by eexists.
  - intros k col. rewrite (lookup_frame_params runs table HT).
    case_decide; [|done].
    intros [= <-]. apply Hall. intros run Hrun.
    destruct (Htyped run Hrun) as (Hp & _ & _). unfold cell.
    destruct (params_of run !! k) as [x|] eqn:Hx; simpl.
    + right. by apply (Hp k x).
    + by left.
  - intros k col. rewrite (lookup_frame_tags runs table HT).
    case_decide; [|done].
    intros [= <-]. apply Hall. intros run Hrun.
    destruct (Htyped run Hrun) as (_ & _ & Ht). unfold cell.
    destruct (tags_of run !! k) as [x|] eqn:Hx; simpl.
    + right. by apply (Ht k x).
    + by left.
  - intros col.
    rewrite !(frame_data_fixed runs table HT)
      by (unfold fixed_columns; set_solver).
    intros [[= <-]|[= <-]]; apply Hall; intros run Hrun;
      destruct (Htyped run Hrun) as (_ & _ & Ht).
    + change (table_cell "run_name" run) with (run_name_cell run).
      unfold run_name_cell.
      destruct (tags (data run) !! "mlflow.runName") as [x|] eqn:Hx; simpl.
      * right. by apply (Ht "mlflow.runName" x).
      * by left.
    + change (table_cell "parent_run_id" run) with (parent_run_id_cell run).
      unfold parent_run_id_cell.
      destruct (tags (data run) !! "mlflow.parentRunId") as [x|] eqn:Hx; simpl.
      * right. by apply (Ht "mlflow.parentRunId" x).
      * by left.
Qed.

(** X8: a table the call produces loses none of the strings of well-typed
    runs.  From the table one reads back, for the run of every row, exactly
    its parameters and its tags outside the reserved namespace: the cell
    under the key is the value, and it is [None] or missing exactly when the
    run has no such key.  Every metric of the run is in its cell too. *)
Theorem table_read_back (runs : list Run) (table : gmap string (list pyval))
    (i : nat) (run : Run) :
  runs_to_pandas runs = Some table →
  Forall well_typed runs →
  runs !! i = Some run →
  (∀ k, run.(data).(params) !! k
        = cell_value (cell_at ("params." +:+ k) i table)) ∧
  (∀ k, startswith k "mlflow." = false →
        run.(data).(tags) !! k = cell_value (cell_at ("tags." +:+ k) i table)) ∧
  (∀ k v, run.(data).(metrics) !! k = Some v →
          cell_at ("metrics." +:+ k) i table = v).
Proof.
  rewrite runs_to_pandas_frame. intros HT Htyped Hi.
  rewrite Forall_forall in Htyped.
  destruct (Htyped run (list_elem_of_lookup_2 _ _ _ Hi)) as (Hp & Hm & Ht).
  repeat split.
  - intros k. change ("params." +:+ k) with (kind_prefix Param +:+ k).
    destruct (params (data run) !! k) as [x|] eqn:Hx.
    + rewrite (cell_at_carried runs table HT Param k i run x) by done.
      by destruct (Hp k x Hx) as [s ->].
    + by rewrite (cell_at_missing runs table HT Param k i run).
  - intros k Hk. change ("tags." +:+ k) with (kind_prefix Tag +:+ k).
    destruct (tags (data run) !! k) as [x|] eqn:Hx.
    + rewrite (cell_at_carried runs table HT Tag k i run x);
        [|done|by simpl; unfold unreserved; rewrite Hk|done].
      by destruct (Ht k x Hx) as [s ->].
    + by rewrite (cell_at_missing runs table HT Tag k i run).
  - intros k v Hv. by apply (cell_at_carried runs table HT Metric k i run v).
Qed.

(** X16: the call produces a table exactly when the start time of every run
    converts to a date, and raises exactly when that of some run does not;
    nothing else makes it fail, pandas always accepts the columns. *)
Theorem runs_to_pandas_produces (runs : list Run) :
  (is_Some (runs_to_pandas runs)
   ↔ Forall (λ run, is_Some (fromtimestamp
                      (Z.quot run.(info).(start_time) 1000))) runs) ∧
  (runs_to_pandas runs = None
   ↔ ∃ run, run ∈ runs ∧
       fromtimestamp (Z.quot run.(info).(start_time) 1000) = None).
Proof.
  assert (∀ run : Run, is_Some (fromtimestamp
            (Z.quot run.(info).(start_time) 1000)) ↔ converts run) as Hconv.
  { intros run. unfold converts, int_div_1e3, fromtimestamp.
    destruct (accepts _); split; first [done | by eexists | by intros [? ?]]. }
  assert (is_Some (runs_to_pandas runs)
          ↔ Forall (λ run, is_Some (fromtimestamp
                      (Z.quot run.(info).(start_time) 1000))) runs) as Hsome.
  { rewrite runs_to_pandas_is_Some. apply Forall_proper; [|done].
    intros run. by rewrite Hconv. }
  split; [done|].
  rewrite eq_None_not_Some, Hsome, <- Exists_Forall_neg, Exists_exists.
  - split; intros (run & Hrun & Hnone); exists run; (split; [done|]).
    + by apply eq_None_not_Some.
    + by apply eq_None_not_Some.
  - intros run. destruct (fromtimestamp _); [left; by eexists|right].
    by intros [? ?].
Qed.

End pivot_facts.

(** ** The theorems above at the runs of the tests *)

Lemma data_runs_table : runs_to_pandas [data_run0; data_run1] = Some data_table.
Proof. vm_compute. reflexivity. Defined.

Lemma named_run_table : runs_to_pandas [named_run] = Some named_table.
Proof. vm_compute. reflexivity. Defined.

Lemma nan_runs_table : runs_to_pandas [plain_run; nan_run] = Some nan_table.
Proof. vm_compute. reflexivity. Defined.

Lemma well_typed_data_runs : Forall well_typed [data_run0; data_run1].
Proof.
  repeat constructor;
    unfold data_run0, data_run1, mock_run; simpl;
    repeat (apply map_Forall_insert_2; [by eexists|]);
    apply map_Forall_empty.
Defined.

Lemma runs_to_pandas_rectangular_witness :
  (∀ c col, data_table !! c = Some col →
     length col = length [data_run0; data_run1] ∧
     ∀ i run, [data_run0; data_run1] !! i = Some run →
              col !! i = Some (table_cell c run)) ∧
  (∀ kd k run, table_cell (kind_prefix kd +:+ k) run
               = default (kind_null kd) (kind_map kd run !! k)) ∧
  (∀ c, c ∈ fixed_columns → is_Some (data_table !! c)) ∧
  (∀ kd k, kind_keep kd k = true →
     Exists (has_key (kind_map kd) k) [data_run0; data_run1] →
     is_Some (data_table !! (kind_prefix kd +:+ k))).
Proof.
  apply (runs_to_pandas_rectangular [data_run0; data_run1] data_table).
  exact data_runs_table.
Defined.

(** The claim C2 as it is stated fails where the first value of a key is
    itself the null of its kind: a metric first logged, by the run at index
    1, as not-a-number has a column of two leading nulls. *)
Lemma first_seen_nan_counterexample :
  runs_to_pandas [plain_run; nan_run] = Some nan_table ∧
  [plain_run; nan_run] !! 1%nat = Some nan_run ∧
  kind_map Metric nan_run !! "m" = Some np_nan ∧
  (∀ j r, (j < 1)%nat → [plain_run; nan_run] !! j = Some r →
          kind_map Metric r !! "m" = None) ∧
  kind_keep Metric "m" = true ∧
  nan_table !! (kind_prefix Metric +:+ "m") = Some [np_nan; np_nan] ∧
  leading_nulls Metric [np_nan; np_nan] = 2%nat ∧
  leading_nulls Metric [np_nan; np_nan] ≠ 1%nat.
Proof.
  split; [exact nan_runs_table|]. repeat split; try done.
  intros j r Hj Hr. destruct j as [|j]; [|lia].
  injection Hr as <-. reflexivity.
Qed.

Lemma first_seen_backfill_witness :
  ∃ col rest, data_table !! (kind_prefix Metric +:+ "loss") = Some col ∧
    col = replicate 1 (kind_null Metric) ++ f1_2 :: rest ∧
    leading_nulls Metric col = 1%nat.
Proof.
  apply (first_seen_backfill [data_run0; data_run1] data_table Metric "loss" 1
           data_run1 f1_2).
  - exact data_runs_table.
  - reflexivity.
  - vm_compute. reflexivity.
  - intros j r Hj Hr. destruct j as [|j]; [|lia].
    injection Hr as <-. vm_compute. reflexivity.
  - reflexivity.
  - discriminate.
Defined.

Lemma null_sentinels_witness :
  (∀ kd k col i run,
     data_table !! (kind_prefix kd +:+ k) = Some col →
     [data_run0; data_run1] !! i = Some run → kind_map kd run !! k = None →
     col !! i = Some (kind_null kd)) ∧
  (kind_null Metric = np_nan ∧ kind_null Param = PNone ∧ kind_null Tag = PNone) ∧
  (∀ k col v, v ∈ col → is_null v →
     (data_table !! ("metrics." +:+ k) = Some col → v = np_nan ∧ v ≠ PNone) ∧
     (data_table !! ("params." +:+ k) = Some col → v = PNone ∧ v ≠ np_nan) ∧
     (data_table !! ("tags." +:+ k) = Some col → v = PNone ∧ v ≠ np_nan)).
Proof.
  apply (null_sentinels [data_run0; data_run1] data_table).
  - exact data_runs_table.
  - exact well_typed_data_runs.
Defined.

Lemma fixed_columns_of_runs_witness :
  (∀ c col, named_table !! c = Some col → length col = length [named_run]) ∧
  named_table !! "run_id" = Some ((λ run, PStr run.(info).(run_id)) <$> [named_run]) ∧
  named_table !! "user_id"
  = Some ((λ run, PStr run.(info).(user_id)) <$> [named_run]) ∧
  named_table !! "date"
  = Some ((λ run, PDatetime
             (at_second (Z.quot run.(info).(start_time) 1000))) <$> [named_run]) ∧
  Forall (λ run, fromtimestamp (Z.quot run.(info).(start_time) 1000)
                 = Some (at_second (Z.quot run.(info).(start_time) 1000)))
    [named_run] ∧
  named_table !! "run_name"
  = Some ((λ run, default PNone (run.(data).(tags) !! "mlflow.runName"))
            <$> [named_run]) ∧
  named_table !! "parent_run_id"
  = Some ((λ run, default PNone (run.(data).(tags) !! "mlflow.parentRunId"))
            <$> [named_run]).
Proof.
  apply (fixed_columns_of_runs [named_run] named_table).
  exact named_run_table.
Defined.

Lemma reserved_tags_hidden_witness :
  named_table !! ("tags." +:+ "mlflow.user") = None.
Proof.
  apply (reserved_tags_hidden [named_run] named_table "mlflow.user").
  - exact named_run_table.
  - reflexivity.
Defined.

Lemma runs_to_pandas_idempotent_witness :
  length (table_to_runs data_table) = length [data_run0; data_run1] ∧
  runs_to_pandas (table_to_runs data_table) = Some data_table.
Proof.
  apply (runs_to_pandas_idempotent [data_run0; data_run1] data_table).
  exact data_runs_table.
Defined.

Lemma same_second_runs_table :
  runs_to_pandas [named_run; named_run_again] = Some same_second_table.
Proof. vm_compute. reflexivity. Defined.

Lemma date_whole_seconds_witness :
  ∃ col, same_second_table !! "date" = Some col ∧
    col !! 0%nat = Some (PDatetime (at_second (Z.quot 1500 1000))) ∧
    col !! 1%nat = col !! 0%nat ∧
    fromtimestamp (Z.quot 1500 1000) = Some (at_second (Z.quot 1500 1000)) ∧
    - 2 ^ 53 < 1500 < 2 ^ 53.
Proof.
  apply (date_whole_seconds [named_run; named_run_again] same_second_table
           0 1 named_run named_run_again).
  - exact same_second_runs_table.
  - reflexivity.
  - reflexivity.
  - reflexivity.
Defined.

Lemma table_columns_witness :
  (∀ c, is_Some (data_table !! c) ↔ has_column c [data_run0; data_run1]) ∧
  (∀ kd k, is_Some (data_table !! (kind_prefix kd +:+ k))
     ↔ kind_keep kd k = true ∧
       ∃ run, run ∈ [data_run0; data_run1] ∧ is_Some (kind_map kd run !! k)) ∧
  (∀ c, plain c → is_Some (data_table !! c) ↔ c ∈ fixed_columns).
Proof.
  apply (table_columns [data_run0; data_run1] data_table).
  exact data_runs_table.
Defined.


Lemma table_append_witness :
  ∃ table1, runs_to_pandas [data_run0] = Some table1 ∧
    ∀ c col1, table1 !! c = Some col1 →
      data_table !! c = Some (col1 ++ (table_cell c <$> [data_run1])).
Proof.
  apply (table_append [data_run0] [data_run1] data_table).
  exact data_runs_table.
Defined.

Lemma table_permutation_witness :
  ∃ table', runs_to_pandas [data_run1; data_run0] = Some table' ∧
    dom table' = dom data_table ∧
    ∀ i j run, [data_run0; data_run1] !! i = Some run →
      [data_run1; data_run0] !! j = Some run →
      ∀ c col, data_table !! c = Some col →
        ∃ col', table' !! c = Some col' ∧ col' !! j = col !! i.
Proof.
  apply (table_permutation [data_run0; data_run1] [data_run1; data_run0]
           data_table).
  - apply perm_swap.
  - exact data_runs_table.
Defined.

Lemma same_view_named_run : same_view named_run named_run_again.
Proof.
  repeat split. intros t Hs.
  unfold named_run, named_run_again, mock_run. simpl.
  destruct (decide (t = "mlflow.runName")) as [->|Hn]; [reflexivity|].
  destruct (decide (t = "tag")) as [->|Ht]; [reflexivity|].
  destruct (decide (t = "mlflow.user")) as [->|Hu].
  { destruct Hs as [Hs|[Hs|Hs]]; discriminate. }
  destruct (decide (t = "mlflow.source.name")) as [->|Hsn].
  { destruct Hs as [Hs|[Hs|Hs]]; discriminate. }
  by rewrite !lookup_insert_ne, !lookup_empty.
Defined.

Lemma table_same_view_witness :
  runs_to_pandas [named_run] = runs_to_pandas [named_run_again].
Proof.
  apply (table_same_view [named_run] [named_run_again]).
  constructor; [exact same_view_named_run | constructor].
Defined.

Lemma update_block_witness :
  map_Forall (λ _ col, length col = 2%nat)
    (update PNone (λ _, true) 1 next_params one_row_columns) ∧
  (∀ k col, one_row_columns !! k = Some col →
     update PNone (λ _, true) 1 next_params one_row_columns !! k
     = Some (col ++ [default PNone (next_params !! k)])) ∧
  (∀ k, is_Some (update PNone (λ _, true) 1 next_params one_row_columns !! k)
     ↔ is_Some (one_row_columns !! k) ∨
       (is_Some (next_params !! k) ∧ (λ _ : string, true) k = true)).
Proof.
  apply (update_block PNone (λ _, true) 1 next_params one_row_columns).
  apply (bool_decide_unpack _). vm_compute. reflexivity.
Defined.

Lemma typed_columns_witness :
  (∀ k col, data_table !! ("metrics." +:+ k) = Some col → Forall is_float col) ∧
  (∀ k col, data_table !! ("params." +:+ k) = Some col →
     Forall (λ v, v = PNone ∨ is_str v) col) ∧
  (∀ k col, data_table !! ("tags." +:+ k) = Some col →
     Forall (λ v, v = PNone ∨ is_str v) col) ∧
  (∀ col, data_table !! "run_name" = Some col ∨
          data_table !! "parent_run_id" = Some col →
     Forall (λ v, v = PNone ∨ is_str v) col).
Proof.
  apply (typed_columns [data_run0; data_run1] data_table).
  - exact data_runs_table.
  - exact well_typed_data_runs.
Defined.

Lemma table_read_back_witness :
  (∀ k, data_run1.(data).(params) !! k
        = cell_value (cell_at ("params." +:+ k) 1 data_table)) ∧
  (∀ k, startswith k "mlflow." = false →
        data_run1.(data).(tags) !! k
        = cell_value (cell_at ("tags." +:+ k) 1 data_table)) ∧
  (∀ k v, data_run1.(data).(metrics) !! k = Some v →
          cell_at ("metrics." +:+ k) 1 data_table = v).
Proof.
  apply (table_read_back [data_run0; data_run1] data_table 1 data_run1).
  - exact data_runs_table.
  - exact well_typed_data_runs.
  - reflexivity.
Defined.

(** A start time past the year 9999 makes the call raise. *)
Example runs_to_pandas_out_of_range :
  runs_to_pandas [mock_run "a" "u" (10 ^ 18) [] [] []] = None ∧
  runs_to_pandas [mock_run "a" "u" 253402300800000 [] [] []] = None ∧
  is_Some (runs_to_pandas [mock_run "a" "u" 253402300799999 [] [] []]).
Proof.
  repeat split; [vm_compute; reflexivity..|]. vm_compute. by eexists.
Qed.

(** ** The specified properties of the facade *)

(** C9: a single int or a single str given as [experiment_ids] reaches the
    store as the one-element list that holds it, a list reaches it as given,
    and the other arguments pass through unchanged. *)
Theorem search_runs_wraps_single_id `{Store.Store}
    (filter_string run_view_type max_results order_by : pyval) :
  (∀ n, Client.search_runs (PInt n) filter_string run_view_type max_results order_by
        = Store.search_runs {|
            Store.experiment_ids := PList [PInt n];
            Store.filter_string := filter_string;
            Store.run_view_type := run_view_type;
            Store.max_results := max_results;
            Store.order_by := order_by |}) ∧
  (∀ s, Client.search_runs (PStr s) filter_string run_view_type max_results order_by
        = Store.search_runs {|
            Store.experiment_ids := PList [PStr s];
            Store.filter_string := filter_string;
            Store.run_view_type := run_view_type;
            Store.max_results := max_results;
            Store.order_by := order_by |}) ∧
  (∀ l, Client.search_runs (PList l) filter_string run_view_type max_results order_by
        = Store.search_runs {|
            Store.experiment_ids := PList l;
            Store.filter_string := filter_string;
            Store.run_view_type := run_view_type;
            Store.max_results := max_results;
            Store.order_by := order_by |}).
Proof. by repeat split. Qed.

Lemma tags_or_empty_default tags : Client.tags_or_empty tags = default [] tags.
Proof. destruct tags as [[|kv d]|]; reflexivity. Qed.

Lemma dict_get_lookup (d : Client.dict) key dflt :
  Client.dict_get d key dflt
  = default dflt ((list_to_map d : gmap string pyval) !! key).
Proof.
  induction d as [|[k v] d IH]; simpl; [done|].
  case_decide as Hk.
  - subst k. by rewrite lookup_insert_eq.
  - by rewrite lookup_insert_ne.
Qed.

Lemma dict_get_elem_of (d : Client.dict) key v dflt :
  NoDup d.*1 → (key, v) ∈ d → Client.dict_get d key dflt = v.
Proof.
  intros Hd Hv. rewrite dict_get_lookup.
  by rewrite (elem_of_list_to_map_1 d key v Hd Hv).
Qed.

Lemma dict_get_not_elem_of (d : Client.dict) key dflt :
  key ∉ d.*1 → Client.dict_get d key dflt = dflt.
Proof.
  intros Hd. rewrite dict_get_lookup.
  by rewrite (not_elem_of_list_to_map_1 d key Hd).
Qed.

(** C10: the user id that reaches the store is the value of the tag
    [mlflow.user] when the tags have that key and the string [unknown]
    otherwise, as when there are no tags; the tags reach the store in full and
    in order, the [mlflow.user] entry among them, each as a RunTag. *)
Theorem create_run_user_id `{Store.Store} (now : Z)
    (experiment_id start_time : pyval) (tags : option Client.dict) :
  ∃ args,
    Client.create_run now experiment_id start_time tags = Store.create_run args ∧
    Store.experiment_id args = experiment_id ∧
    Store.tags args
    = (λ kv, {| Store.key := kv.1; Store.value := kv.2 |}) <$> default [] tags ∧
    Store.user_id args
    = default (PStr "unknown")
        ((list_to_map (default [] tags) : gmap string pyval) !! Client.MLFLOW_USER) ∧
    (∀ v, NoDup (default [] tags).*1 →
          (Client.MLFLOW_USER, v) ∈ default [] tags → Store.user_id args = v) ∧
    (Client.MLFLOW_USER ∉ (default [] tags).*1 →
       Store.user_id args = PStr "unknown").
Proof.
  eexists. split; [reflexivity|]. simpl. rewrite tags_or_empty_default.
  split; [done|]. split.
  { apply list_fmap_ext. by intros i [k v] _. }
  split; [apply dict_get_lookup|]. split.
  - intros v Hd Hv. by apply dict_get_elem_of.
  - apply dict_get_not_elem_of.
Qed.

(** ** The tests of tests/tracking/test_client.py *)

Example test_client_runs_to_pandas_run_info :
  runs_to_pandas [mock_run "uuid" "user_id" 0 [] [] [];
                  mock_run "uuid2" "user_id2" 0 [] [] []]
  = Some (list_to_map [
      ("date", [PDatetime (at_second 0); PDatetime (at_second 0)]);
      ("run_id", [PStr "uuid"; PStr "uuid2"]);
      ("run_name", [PNone; PNone]);
      ("parent_run_id", [PNone; PNone]);
      ("user_id", [PStr "user_id"; PStr "user_id2"])]).
Proof. vm_compute. reflexivity. Qed.

Example test_client_runs_to_pandas_run_data :
  runs_to_pandas [data_run0; data_run1]
  = Some (list_to_map [
      ("date", [PDatetime (at_second 0); PDatetime (at_second 0)]);
      ("run_id", [PStr ""; PStr ""]);
      ("run_name", [PNone; PNone]);
      ("parent_run_id", [PNone; PNone]);
      ("user_id", [PStr ""; PStr ""]);
      ("metrics.mse", [f0_2; f0_6]);
      ("metrics.loss", [np_nan; f1_2]);
      ("params.param", [PStr "value"; PNone]);
      ("params.param2", [PNone; PStr "val"]);
      ("params.k", [PNone; PStr "v"]);
      ("tags.tag", [PStr "value"; PNone]);
      ("tags.tag2", [PNone; PStr "v2"])]).
Proof. vm_compute. reflexivity. Qed.

Example test_client_create_run (experiment_id : pyval) :
  Client.create_run (store := Store.mock_store) 1552319350244 experiment_id PNone None
  = Store.CreateRun {|
      Store.experiment_id := experiment_id;
      Store.user_id := PStr "unknown";
      Store.start_time := PInt 1552319350244;
      Store.tags := [] |}.
Proof. reflexivity. Qed.

Example test_client_create_run_overrides (experiment_id user start_time : pyval) :
  Client.truthy start_time = true →
  Client.create_run (store := Store.mock_store) 0 experiment_id start_time
    (Some [("mlflow.user", user); ("mlflow.parentRunId", PStr "p");
           ("other-key", PStr "other-value")])
  = Store.CreateRun {|
      Store.experiment_id := experiment_id;
      Store.user_id := user;
      Store.start_time := start_time;
      Store.tags := [Store.Build_RunTag "mlflow.user" user;
                     Store.Build_RunTag "mlflow.parentRunId" (PStr "p");
                     Store.Build_RunTag "other-key" (PStr "other-value")] |}.
Proof. intros Ht. unfold Client.create_run. rewrite Ht. reflexivity. Qed.

Example test_client_search_runs_int_experiment_id (f v m o : pyval) :
  Client.search_runs (store := Store.mock_store) (PInt 123) f v m o
  = Store.SearchRuns {|
      Store.experiment_ids := PList [PInt 123];
      Store.filter_string := f;
      Store.run_view_type := v;
      Store.max_results := m;
      Store.order_by := o |}.
Proof. reflexivity. Qed.

Example test_client_search_runs_string_experiment_id (f v m o : pyval) :
  Client.search_runs (store := Store.mock_store) (PStr "abc") f v m o
  = Store.SearchRuns {|
      Store.experiment_ids := PList [PStr "abc"];
      Store.filter_string := f;
      Store.run_view_type := v;
      Store.max_results := m;
      Store.order_by := o |}.
Proof. reflexivity. Qed.

Example test_client_search_runs_defaults (f v m o : pyval) :
  Client.search_runs (store := Store.mock_store)
    (PList [PInt 1; PInt 2; PInt 3]) f v m o
  = Store.SearchRuns {|
      Store.experiment_ids := PList [PInt 1; PInt 2; PInt 3];
      Store.filter_string := f;
      Store.run_view_type := v;
      Store.max_results := m;
      Store.order_by := o |}.
Proof. reflexivity. Qed.

(** * Further properties of the facade *)

Section logging_facts.
Context `{validation : Logging.Validation} `{store : Logging.Store}.

Lemma for_each_fmap {A} (check : A → option Logging.exn) xs :
  Logging.for_each check xs = Logging.for_each id (check <$> xs).
Proof.
  induction xs as [|x xs IH]; [done|]. simpl. by rewrite IH.
Qed.

Lemma for_each_app (l1 l2 : list (option Logging.exn)) :
  Logging.for_each id (l1 ++ l2)
  = match Logging.for_each id l1 with
    | Some e => Some e
    | None => Logging.for_each id l2
    end.
Proof.
  induction l1 as [|[e|] l1 IH]; simpl; [done|done|apply IH].
Qed.

Lemma for_each_None (l : list (option Logging.exn)) :
  Logging.for_each id l = None ↔ Forall (λ c, c = None) l.
Proof.
  induction l as [|[e|] l IH]; simpl.
  - split; [by constructor|done].
  - split; [done|]. intros Hl. by apply Forall_cons in Hl as [? _].
  - rewrite IH. split; [by constructor|].
    intros Hl. by apply Forall_cons in Hl as [_ ?].
Qed.

Lemma for_each_Some (l : list (option Logging.exn)) e :
  Logging.for_each id l = Some e
  ↔ ∃ i, l !! i = Some (Some e) ∧ ∀ j, (j < i)%nat → l !! j = Some None.
Proof.
  induction l as [|[e'|] l IH]; simpl.
  - split; [done|]. by intros (i & Hi & _).
  - split.
    + intros [= ->]. exists 0%nat. split; [done|]. intros j Hj. lia.
    + intros (i & Hi & Hbefore). destruct i as [|i]; [by injection Hi as ->|].
      specialize (Hbefore 0%nat ltac:(lia)). done.
  - rewrite IH. split.
    + intros (i & Hi & Hbefore). exists (S i). split; [done|].
      intros [|j] Hj; [done|]. apply Hbefore. lia.
    + intros (i & Hi & Hbefore). destruct i as [|i]; [done|].
      exists i. split; [done|]. intros j Hj. apply (Hbefore (S j)). lia.
Qed.

Lemma client_log_batch_checks run_id metrics params tags :
  Logging.client_log_batch run_id metrics params tags
  = match Logging.for_each id (Logging.batch_checks metrics params tags) with
    | Some e => inl e
    | None => inr (Logging.log_batch run_id metrics params tags)
    end.
Proof.
  unfold Logging.client_log_batch, Logging.batch_checks, Logging.and_then.
  rewrite !for_each_app, <- !for_each_fmap.
  repeat match goal with |- context [Logging.for_each ?f ?l] =>
    destruct (Logging.for_each f l); [done|] end.
  done.
Qed.

(** X9: [log_batch] reaches the store exactly when every metric, every
    parameter name and every tag name passes its validation, and then the
    store gets the run id and the three lists as they were given. *)
Theorem log_batch_all_or_nothing (run_id : pyval)
    (metrics : list Logging.Metric) (params : list Logging.Param)
    (tags : list Store.RunTag) :
  ((∃ r, Logging.client_log_batch run_id metrics params tags = inr r)
   ↔ Forall (λ c, c = None) (Logging.batch_checks metrics params tags)) ∧
  (∀ r, Logging.client_log_batch run_id metrics params tags = inr r →
        r = Logging.log_batch run_id metrics params tags).
Proof.
  rewrite client_log_batch_checks, <- for_each_None.
  destruct (Logging.for_each id _) as [e|]; split.
  - split; [by intros [r ?]|done].
  - done.
  - split; [done|by eexists].
  - by intros r [= <-].
Qed.

(** X10: when [log_batch] raises, it raises the exception of the first
    failing check, the checks running over the metrics, then the parameters,
    then the tags, each list in order. *)
Theorem log_batch_first_error (run_id : pyval)
    (metrics : list Logging.Metric) (params : list Logging.Param)
    (tags : list Store.RunTag) (e : Logging.exn) :
  Logging.client_log_batch run_id metrics params tags = inl e
  ↔ ∃ i, Logging.batch_checks metrics params tags !! i = Some (Some e) ∧
         ∀ j, (j < i)%nat →
              Logging.batch_checks metrics params tags !! j = Some None.
Proof.
  rewrite client_log_batch_checks, <- for_each_Some.
  destruct (Logging.for_each id _) as [e'|].
  - split; [by intros [= ->]|by intros [= ->]].
  - split; done.
Qed.

(** X11: a metric logged alone through [log_batch] is refused exactly when
    [log_metric] refuses the same key, value, timestamp and step, and with
    the same exception. *)
Theorem log_metric_agrees_with_log_batch (now : Z) (run_id : pyval)
    (m : Logging.Metric) (e : Logging.exn) :
  m.(Logging.metric_timestamp) ≠ PNone →
  m.(Logging.metric_step) ≠ PNone →
  Logging.client_log_metric now run_id m.(Logging.metric_key)
    m.(Logging.metric_value) m.(Logging.metric_timestamp)
    m.(Logging.metric_step) = inl e
  ↔ Logging.client_log_batch run_id [m] [] [] = inl e.
Proof.
  intros Hts Hstep.
  unfold Logging.client_log_metric, Logging.client_log_batch, Logging.and_then.
  simpl.
  destruct (Logging.metric_timestamp m) eqn:Ht; [done|..];
    destruct (Logging.metric_step m) eqn:Hs; try done;
    by destruct (Logging._validate_metric _ _ _ _).
Qed.

End logging_facts.

Lemma log_metric_agrees_with_log_batch_witness :
  Logging.client_log_metric (validation := Logging.sample_validation)
    (store := Logging.recording_store) 5 (PStr "run") (PStr "") (PInt 1)
    (PInt 0) (PInt 0) = inl "Invalid metric name"
  ↔ Logging.client_log_batch (validation := Logging.sample_validation)
      (store := Logging.recording_store) (PStr "run")
      [Logging.Build_Metric (PStr "") (PInt 1) (PInt 0) (PInt 0)] [] []
    = inl "Invalid metric name".
Proof.
  apply (log_metric_agrees_with_log_batch (validation := Logging.sample_validation)
           (store := Logging.recording_store) 5 (PStr "run")
           (Logging.Build_Metric (PStr "") (PInt 1) (PInt 0) (PInt 0))
           "Invalid metric name"); discriminate.
Defined.

(** X12: [create_run] forwards a start time that counts as true and puts
    the current time in place of one that does not: a start time of [None]
    and also an explicit start time of 0 reach the store as the time of the
    call. *)
Theorem create_run_start_time `{Store.Store} (now : Z)
    (experiment_id start_time : pyval) (tags : option Client.dict) :
  ∃ args,
    Client.create_run now experiment_id start_time tags = Store.create_run args ∧
    (Client.truthy start_time = true → Store.start_time args = start_time) ∧
    (start_time = PNone ∨ start_time = PInt 0 →
     Store.start_time args = PInt now).
Proof.
  eexists. split; [reflexivity|]. simpl. split.
  - by intros ->.
  - by intros [->| ->].
Qed.

(** X13: giving [search_runs] a single int or str id is the same call as
    giving it the list that holds just that id; and what is neither an int
    nor a str reaches the store as it was given. *)
Theorem search_runs_wrap_idempotent `{Store.Store}
    (experiment_ids filter_string run_view_type max_results order_by : pyval) :
  (isinstance_int experiment_ids || isinstance_str experiment_ids = true →
   Client.search_runs experiment_ids filter_string run_view_type
     max_results order_by
   = Client.search_runs (PList [experiment_ids]) filter_string run_view_type
       max_results order_by) ∧
  (isinstance_int experiment_ids || isinstance_str experiment_ids = false →
   Client.search_runs experiment_ids filter_string run_view_type
     max_results order_by
   = Store.search_runs {|
       Store.experiment_ids := experiment_ids;
       Store.filter_string := filter_string;
       Store.run_view_type := run_view_type;
       Store.max_results := max_results;
       Store.order_by := order_by |}).
Proof.
  unfold Client.search_runs. split; by intros ->.
Qed.

Lemma dict_get_list_find (d : Client.dict) key dflt :
  Client.dict_get d key dflt
  = match list_find (λ t, t.(Store.key) = key)
            ((λ '(k, v), Store.Build_RunTag k v) <$> d) with
    | Some (_, t) => t.(Store.value)
    | None => dflt
    end.
Proof.
  induction d as [|[k v] d IH]; [done|]. simpl.
  rewrite IH. case_decide; [done|].
  by destruct (list_find _ _) as [[? ?]|].
Qed.

(** X14: the user id and the tags of one [create_run] call agree: the user
    id the store gets is the value of the first RunTag it gets with the key
    [mlflow.user], and the string [unknown] when it gets no such RunTag.
    Giving no tags and giving an empty dictionary are the same call. *)
Theorem create_run_user_matches_tags `{Store.Store} (now : Z)
    (experiment_id start_time : pyval) (tags : option Client.dict) :
  (∃ args,
     Client.create_run now experiment_id start_time tags = Store.create_run args ∧
     Store.user_id args
     = match list_find (λ t, t.(Store.key) = Client.MLFLOW_USER)
               (Store.tags args) with
       | Some (_, t) => t.(Store.value)
       | None => PStr "unknown"
       end) ∧
  Client.create_run now experiment_id start_time None
  = Client.create_run now experiment_id start_time (Some []).
Proof.
  split; [|done]. eexists. split; [reflexivity|]. simpl.
  apply dict_get_list_find.
Qed.
